(** * nbfree: notebook / script reconciliation

    A shallow embedding of [src/nbfree/__init__.py] and the properties of its
    format converter, content hasher and reconciliation engine.

    Python [str] values are sequences of Unicode code points; they are
    modelled as lists of [N].  Files on disk are held in two finite maps, one
    for the text files and one for the notebook files.  The libraries the
    script calls are modelled by what they compute: [hashlib.md5] and
    [json.dumps] in full, [nbformat] and the execution preprocessor as
    functions on notebook values.  The discovery of the stems in [main] and
    the encoding of texts to UTF-8 on disk are not modelled. *)

From Stdlib Require Import ZArith NArith List Bool Ascii String Lia.
From stdpp Require Import base option list gmap.
Import ListNotations.

Local Open Scope list_scope.

(** ** Python strings *)

Module Py.

Abbreviation char := N (only parsing).
Abbreviation str := (list N) (only parsing).

(** A literal of the source, given as a Rocq string (one code point per
    character). *)
Definition lit (s : string) : str :=
  map N_of_ascii (list_ascii_of_string s).
Arguments lit s%_string.

Definition LF : char := 10%N.
Definition CR : char := 13%N.

Fixpoint str_eqb (a b : str) : bool :=
  match a, b with
  | [], [] => true
  | x :: a', y :: b' => N.eqb x y && str_eqb a' b'
  | _, _ => false
  end.

(** [s.startswith(p)] *)
Fixpoint startswith (s p : str) {struct p} : bool :=
  match p with
  | [] => true
  | y :: p' =>
      match s with
      | [] => false
      | x :: s' => N.eqb x y && startswith s' p'
      end
  end.

(** [s.endswith(p)] *)
Definition endswith (s p : str) : bool :=
  startswith (rev s) (rev p).

(** [sub in s] *)
Fixpoint contains (s sub : str) : bool :=
  startswith s sub ||
  match s with
  | [] => false
  | _ :: s' => contains s' sub
  end.

(** Slicing [s[i:j]] with Python's treatment of negative and
    out-of-range indices. *)
Definition norm_index (len : nat) (i : Z) : nat :=
  if (i <? 0)%Z then Z.to_nat (Z.max 0 (Z.of_nat len + i))
  else Nat.min (Z.to_nat i) len.

Definition slice (s : str) (i j : Z) : str :=
  let a := norm_index (length s) i in
  let b := norm_index (length s) j in
  firstn (b - a) (skipn a s).

(** [s[i:]] *)
Definition slice_from (s : str) (i : Z) : str :=
  skipn (norm_index (length s) i) s.

(** [str.isspace] on one code point. *)
Definition isspace (c : char) : bool :=
  ((9 <=? c) && (c <=? 13) || (28 <=? c) && (c <=? 32)
   || (c =? 133) || (c =? 160) || (c =? 5760)
   || (8192 <=? c) && (c <=? 8202)
   || (c =? 8232) || (c =? 8233) || (c =? 8239) || (c =? 8287)
   || (c =? 12288))%N.

(** The line boundaries of [str.splitlines]. *)
Definition islinebreak (c : char) : bool :=
  ((10 <=? c) && (c <=? 13) || (28 <=? c) && (c <=? 30)
   || (c =? 133) || (c =? 8232) || (c =? 8233))%N.

Fixpoint lstrip (s : str) : str :=
  match s with
  | [] => []
  | c :: s' => if isspace c then lstrip s' else s
  end.

Definition rstrip (s : str) : str := rev (lstrip (rev s)).

(** [s.strip()] *)
Definition strip (s : str) : str := rstrip (lstrip s).

(** [sep.join(l)] *)
Fixpoint join (sep : str) (l : list str) : str :=
  match l with
  | [] => []
  | [x] => x
  | x :: l' => x ++ sep ++ join sep l'
  end.

(** [s.splitlines()]: the line breaks are dropped, CR LF is one break, and a
    final line break does not open a last empty line. *)
Fixpoint splitlines (s : str) : list str :=
  match s with
  | [] => []
  | c :: s' =>
      if islinebreak c then
        match s' with
        | d :: s'' =>
            if (c =? CR)%N && (d =? LF)%N then [] :: splitlines s''
            else [] :: splitlines s'
        | [] => [[]]
        end
      else
        match splitlines s' with
        | [] => [[c]]
        | l :: ls => (c :: l) :: ls
        end
  end.

(** [s.partition(sep)] restricted to its first and last components:
    the text before the leftmost occurrence of [sep] and the text after it. *)
Fixpoint partition (sep s : str) : option (str * str) :=
  if startswith s sep then Some ([], skipn (length sep) s)
  else
    match s with
    | [] => None
    | c :: s' =>
        match partition sep s' with
        | Some (a, b) => Some (c :: a, b)
        | None => None
        end
    end.

(** [s.split(sep)] for a non-empty [sep]: cut at the leftmost occurrences,
    from left to right.  Every cut consumes at least one character, so
    [length s] rounds are enough. *)
Fixpoint split_n (n : nat) (sep s : str) : list str :=
  match partition sep s with
  | None => [s]
  | Some (a, b) =>
      match n with
      | O => [s]
      | S n' => a :: split_n n' sep b
      end
  end.

Definition split (s sep : str) : list str := split_n (length s) sep s.

(** What a read in text mode gives for the text on disk: with universal
    newlines, a carriage return, alone or before a line feed, is read as a
    line feed. *)
Fixpoint universal_newlines (s : str) : str :=
  match s with
  | [] => []
  | c :: s' =>
      if (c =? CR)%N then
        LF :: match s' with
              | d :: s'' =>
                  if (d =? LF)%N then universal_newlines s''
                  else universal_newlines s'
              | [] => []
              end
      else c :: universal_newlines s'
  end.

(** The characters of [s] that break lines are line feeds. *)
Definition only_lf (s : str) : Prop :=
  Forall (fun c => islinebreak c = true -> c = LF) s.

End Py.

(** ** hashlib.md5 (RFC 1321) on a list of bytes *)

Module MD5.

Local Open Scope Z_scope.

Definition add32 (a b : Z) : Z := (a + b) mod 2 ^ 32.
Definition not32 (a : Z) : Z := Z.lxor a 0xffffffff.
Definition rotl32 (x n : Z) : Z :=
  Z.lor (Z.shiftl x n mod 2 ^ 32) (Z.shiftr x (32 - n)).

Definition K : list Z :=
  [ 0xd76aa478; 0xe8c7b756; 0x242070db; 0xc1bdceee;
    0xf57c0faf; 0x4787c62a; 0xa8304613; 0xfd469501;
    0x698098d8; 0x8b44f7af; 0xffff5bb1; 0x895cd7be;
    0x6b901122; 0xfd987193; 0xa679438e; 0x49b40821;
    0xf61e2562; 0xc040b340; 0x265e5a51; 0xe9b6c7aa;
    0xd62f105d; 0x02441453; 0xd8a1e681; 0xe7d3fbc8;
    0x21e1cde6; 0xc33707d6; 0xf4d50d87; 0x455a14ed;
    0xa9e3e905; 0xfcefa3f8; 0x676f02d9; 0x8d2a4c8a;
    0xfffa3942; 0x8771f681; 0x6d9d6122; 0xfde5380c;
    0xa4beea44; 0x4bdecfa9; 0xf6bb4b60; 0xbebfbc70;
    0x289b7ec6; 0xeaa127fa; 0xd4ef3085; 0x04881d05;
    0xd9d4d039; 0xe6db99e5; 0x1fa27cf8; 0xc4ac5665;
    0xf4292244; 0x432aff97; 0xab9423a7; 0xfc93a039;
    0x655b59c3; 0x8f0ccc92; 0xffeff47d; 0x85845dd1;
    0x6fa87e4f; 0xfe2ce6e0; 0xa3014314; 0x4e0811a1;
    0xf7537e82; 0xbd3af235; 0x2ad7d2bb; 0xeb86d391 ].

Definition shifts : list Z :=
  [ 7; 12; 17; 22; 7; 12; 17; 22; 7; 12; 17; 22; 7; 12; 17; 22;
    5; 9; 14; 20; 5; 9; 14; 20; 5; 9; 14; 20; 5; 9; 14; 20;
    4; 11; 16; 23; 4; 11; 16; 23; 4; 11; 16; 23; 4; 11; 16; 23;
    6; 10; 15; 21; 6; 10; 15; 21; 6; 10; 15; 21; 6; 10; 15; 21 ].

Definition state : Type := Z * Z * Z * Z.

Definition init : state := (0x67452301, 0xefcdab89, 0x98badcfe, 0x10325476).

(** One of the 64 operations of a block; [M] holds its sixteen words. *)
Definition step (M : list Z) (st : state) (i : nat) : state :=
  let '(a, b, c, d) := st in
  let '(f, g) :=
    if (i <? 16)%nat then (Z.lor (Z.land b c) (Z.land (not32 b) d), i)
    else if (i <? 32)%nat then
      (Z.lor (Z.land d b) (Z.land (not32 d) c), ((5 * i + 1) mod 16)%nat)
    else if (i <? 48)%nat then
      (Z.lxor b (Z.lxor c d), ((3 * i + 5) mod 16)%nat)
    else (Z.lxor c (Z.lor b (not32 d)), ((7 * i) mod 16)%nat) in
  let f' := add32 (add32 (add32 f a) (nth i K 0)) (nth g M 0) in
  (d, add32 b (rotl32 f' (nth i shifts 0)), b, c).

(** Little-endian words of a block of bytes. *)
Fixpoint words (bs : list Z) : list Z :=
  match bs with
  | b0 :: b1 :: b2 :: b3 :: rest =>
      (b0 + 2 ^ 8 * b1 + 2 ^ 16 * b2 + 2 ^ 24 * b3) :: words rest
  | _ => []
  end.

Definition block (st : state) (bs : list Z) : state :=
  let '(a, b, c, d) := st in
  let '(a', b', c', d') := fold_left (step (words bs)) (seq 0 64) st in
  (add32 a a', add32 b b', add32 c c', add32 d d').

Definition le_bytes (n : nat) (x : Z) : list Z :=
  map (fun i => (x / 2 ^ (8 * Z.of_nat i)) mod 256) (seq 0 n).

(** Padding: a one bit, zeros up to 56 modulo 64, then the bit length. *)
Definition pad (msg : list Z) : list Z :=
  let len := Z.of_nat (length msg) in
  let zeros := Z.to_nat ((55 - len) mod 64) in
  msg ++ [0x80] ++ repeat 0 zeros ++ le_bytes 8 ((8 * len) mod 2 ^ 64).

Fixpoint blocks (n : nat) (st : state) (bs : list Z) : state :=
  match n with
  | O => st
  | S n' => blocks n' (block st (firstn 64 bs)) (skipn 64 bs)
  end.

Definition digest (msg : list Z) : list Z :=
  let p := pad msg in
  let '(a, b, c, d) := blocks (length p / 64) init p in
  le_bytes 4 a ++ le_bytes 4 b ++ le_bytes 4 c ++ le_bytes 4 d.

End MD5.

(** Lower-case hexadecimal digits, as in [hexdigest] and [json.dumps]. *)
Definition hexdigit (d : Z) : Py.char :=
  Z.to_N (if (d <? 10)%Z then 48 + d else 87 + d)%Z.

Definition hexbyte (b : Z) : Py.str :=
  [hexdigit (b / 16); hexdigit (b mod 16)].

(** [hashlib.md5(bs).hexdigest()] *)
Definition md5_hexdigest (bs : list Z) : Py.str :=
  concat (map hexbyte (MD5.digest bs)).

Definition bytes_of_lit (s : string) : list Z :=
  map (fun c => Z.of_N c) (Py.lit s).

(** ** json.dumps on a list of strings, and [str.encode] *)

Module Json.

Import Py.

Definition hex4 (n : Z) : str :=
  [ hexdigit ((n / 4096) mod 16); hexdigit ((n / 256) mod 16);
    hexdigit ((n / 16) mod 16); hexdigit (n mod 16) ].

(** A backslash, [u] and four hexadecimal digits. *)
Definition uescape (n : Z) : str := [92; 117]%N ++ hex4 n.

(** The escape of one code point under [ensure_ascii=True]. *)
Definition escape_char (c : char) : str :=
  (if c =? 34 then [92; 34]
   else if c =? 92 then [92; 92]
   else if c =? 10 then [92; 110]
   else if c =? 13 then [92; 114]
   else if c =? 9 then [92; 116]
   else if c =? 12 then [92; 102]
   else if c =? 8 then [92; 98]
   else if (32 <=? c) && (c <=? 126) then [c]
   else if c <? 65536 then uescape (Z.of_N c)
   else
     let v := (Z.of_N c - 65536)%Z in
     uescape (Z.lor 0xd800 (Z.land (Z.shiftr v 10) 0x3ff))
       ++ uescape (Z.lor 0xdc00 (Z.land v 0x3ff)))%N.

Definition dumps_str (s : str) : str :=
  [34%N] ++ flat_map escape_char s ++ [34%N].

(** [json.dumps(l)] for a list of strings [l]. *)
Definition dumps (l : list str) : str :=
  lit "[" ++ join (lit ", ") (map dumps_str l) ++ lit "]".

(** [s.encode()]: UTF-8.  The output of [dumps] is ASCII only, where it is
    one byte per character. *)
Definition encode_char (c : char) : list Z :=
  let z := Z.of_N c in
  (if z <? 0x80 then [z]
   else if z <? 0x800 then [0xc0 + z / 64; 0x80 + z mod 64]
   else if z <? 0x10000 then
     [0xe0 + z / 4096; 0x80 + (z / 64) mod 64; 0x80 + z mod 64]
   else [0xf0 + z / 262144; 0x80 + (z / 4096) mod 64;
         0x80 + (z / 64) mod 64; 0x80 + z mod 64])%Z.

Definition encode (s : str) : list Z := flat_map encode_char s.

(** The JSON values a notebook carries besides its cell sources. *)
#[warnings="-register-all"] Inductive value : Type :=
  | Null
  | Bool (b : bool)
  | Int (z : Z)
  | Str (s : str)
  | Array (l : list value)
  | Dict (kv : list (str * value)).

End Json.

(** ** The notebook data model *)

(** A cell of an nbformat 4 notebook, a dictionary with the keys of its
    [cell_type].  [nbformat.read] joins multi-line sources, so that a source
    is one string. *)
Inductive Cell : Type :=
  | MarkdownCell (metadata : Json.value) (source : Py.str)
  | CodeCell (metadata : Json.value) (source : Py.str)
      (outputs : list Json.value) (execution_count : option Z)
  | RawCell (metadata : Json.value) (source : Py.str).

Definition cell_type (c : Cell) : Py.str :=
  match c with
  | MarkdownCell _ _ => Py.lit "markdown"
  | CodeCell _ _ _ _ => Py.lit "code"
  | RawCell _ _ => Py.lit "raw"
  end.

Definition cell_source (c : Cell) : Py.str :=
  match c with
  | MarkdownCell _ s | CodeCell _ s _ _ | RawCell _ s => s
  end.

Definition cell_metadata (c : Cell) : Json.value :=
  match c with
  | MarkdownCell m _ | CodeCell m _ _ _ | RawCell m _ => m
  end.

Record NotebookNode : Type := {
  cells : list Cell;
  metadata : Json.value;
  nbformat : Z;
  nbformat_minor : Z
}.

(** A path: a directory and a file name in it. *)
Definition Path : Type := Py.str * Py.str.

Record NotebookFile : Type := {
  path : Path;
  nb_data : NotebookNode
}.

(** ** The format converter and the content hasher *)

Definition HEADER_COMMENT : Py.str := Eval cbv in (Py.lit "# %%" ++ [Py.LF]).
Definition HASH_PREFIX : Py.str := Eval cbv in Py.lit "# %% NOTEBOOK_HASH=".

(** Three double quotes. *)
Definition TRIPLE_QUOTE : Py.str := [34; 34; 34]%N.

(** The separator of [write_to_py]: a line feed, then [# %%], then a line feed. *)
Definition CHUNK_SEP : Py.str := Eval cbv in (Py.LF :: Py.lit "# %%" ++ [Py.LF]).

Definition cell_of_chunk (raw_cell : Py.str) : Cell :=
  if Py.startswith raw_cell TRIPLE_QUOTE && Py.endswith raw_cell TRIPLE_QUOTE
  then MarkdownCell (Json.Dict []) (Py.slice raw_cell 3 (-3))
  else CodeCell (Json.Dict []) raw_cell [] None.

Definition default_metadata : Json.value :=
  Json.Dict
    [ (Py.lit "kernelspec",
       Json.Dict [ (Py.lit "display_name", Json.Str (Py.lit "Python 3"));
                   (Py.lit "language", Json.Str (Py.lit "python"));
                   (Py.lit "name", Json.Str (Py.lit "python3")) ]);
      (Py.lit "language_info",
       Json.Dict [ (Py.lit "name", Json.Str (Py.lit "python"));
                   (Py.lit "version", Json.Str (Py.lit "3.10")) ]) ].

Definition from_code_cells (p : Path) (raw_cells : list Py.str) : NotebookFile :=
  {| path := p;
     nb_data := {| cells := map cell_of_chunk raw_cells;
                   metadata := default_metadata;
                   nbformat := 4;
                   nbformat_minor := 4 |} |}.

(** The chunk [write_to_py] appends for one cell, if any.  The source of a
    cell is one string, which [join] on the empty string leaves as it is. *)
Definition chunk_of_cell (cell : Cell) : list Py.str :=
  if Py.str_eqb (cell_type cell) (Py.lit "markdown") then
    [TRIPLE_QUOTE ++ [Py.LF] ++ cell_source cell ++ [Py.LF] ++ TRIPLE_QUOTE]
  else if Py.str_eqb (cell_type cell) (Py.lit "code") then
    [cell_source cell]
  else [].

Definition py_chunks (nb : NotebookNode) : list Py.str :=
  flat_map chunk_of_cell (cells nb).

(** The text [write_to_py] writes. *)
Definition py_text (nb : NotebookNode) (hash : Py.str) : Py.str :=
  HASH_PREFIX ++ (hash ++ [Py.LF]) ++ Py.join CHUNK_SEP (py_chunks nb).

Definition sources (nb : NotebookNode) : list Py.str :=
  map cell_source (cells nb).

Definition compute_hash (nb : NotebookNode) : Py.str :=
  md5_hexdigest (Json.encode (Json.dumps (sources nb))).

Definition extract_hash_and_chunks (content : Py.str)
  : option Py.str * list Py.str :=
  let '(hash, content) :=
    if Py.startswith content HASH_PREFIX then
      let lines := Py.splitlines content in
      (Some (Py.slice_from (hd [] lines) (Z.of_nat (length HASH_PREFIX))),
       Py.join [Py.LF] (tl lines))
    else (None, content) in
  let parts := Py.split content HEADER_COMMENT in
  (hash, map Py.strip parts).

(** ** Files, the kernel and the process *)

(** The two calls of [sys.exit] in [process_file_pair], with the values
    their messages interpolate. *)
Inductive ExitMessage : Type :=
  | UnrecognizedFlatFile (py_path nb_path : Path)
  | Conflict (stem : Py.str) (py_path : Path) (nb_exists : bool).

Inductive Exn : Type :=
  | SystemExit (msg : ExitMessage)
  | AssertionError
  | FileNotFoundError (p : Path)
  | CellExecutionError.

Inductive Result (A : Type) : Type :=
  | Ok (a : A)
  | Raise (e : Exn).
Arguments Ok {A} a.
Arguments Raise {A} e.

(** The disk holds the text files and the notebook files.  A text file is
    held as the text written to it (on a system whose line separator is the
    line feed); a notebook file is held as the notebook value [json.dump]
    serialises and [nbformat.read] gives back.  [stdout] has the pairs
    [a -> b] the script prints, and [kernel_log] the notebooks handed to the
    execution preprocessor. *)
Record World : Type := {
  py_files : gmap Path Py.str;
  nb_files : gmap Path NotebookNode;
  stdout : list (Path * Path);
  kernel_log : list NotebookNode
}.

(** [ep.preprocess]: the executed notebook, or [None] when it raises. *)
Definition Executor : Type := NotebookNode -> option NotebookNode.

Definition IO (A : Type) : Type := World -> Result A * World.

#[global] Instance IO_ret : MRet IO := fun A a w => (Ok a, w).
#[global] Instance IO_bind : MBind IO := fun A B k m w =>
  match m w with
  | (Ok a, w') => k a w'
  | (Raise e, w') => (Raise e, w')
  end.

Definition raise {A : Type} (e : Exn) : IO A := fun w => (Raise e, w).

Definition set_py_files (f : gmap Path Py.str) (w : World) : World :=
  {| py_files := f; nb_files := nb_files w;
     stdout := stdout w; kernel_log := kernel_log w |}.

Definition set_nb_files (f : gmap Path NotebookNode) (w : World) : World :=
  {| py_files := py_files w; nb_files := f;
     stdout := stdout w; kernel_log := kernel_log w |}.

Definition set_stdout (l : list (Path * Path)) (w : World) : World :=
  {| py_files := py_files w; nb_files := nb_files w;
     stdout := l; kernel_log := kernel_log w |}.

Definition set_kernel_log (l : list NotebookNode) (w : World) : World :=
  {| py_files := py_files w; nb_files := nb_files w;
     stdout := stdout w; kernel_log := l |}.

Definition py_exists (p : Path) : IO bool := fun w =>
  (Ok (bool_decide (is_Some (py_files w !! p))), w).

Definition nb_exists (p : Path) : IO bool := fun w =>
  (Ok (bool_decide (is_Some (nb_files w !! p))), w).

(** What [open(p).read()] gives: the text of the file as text mode reads
    it. *)
Definition py_read (w : World) (p : Path) : option Py.str :=
  Py.universal_newlines <$> py_files w !! p.

Definition read_text (p : Path) : IO Py.str := fun w =>
  match py_read w p with
  | Some content => (Ok content, w)
  | None => (Raise (FileNotFoundError p), w)
  end.

Definition write_text (p : Path) (content : Py.str) : IO unit := fun w =>
  (Ok tt, set_py_files (<[p := content]> (py_files w)) w).

Definition print (line : Path * Path) : IO unit := fun w =>
  (Ok tt, set_stdout (stdout w ++ [line]) w).

Definition load_python_file (p : Path) : IO (option Py.str * list Py.str) :=
  content ← read_text p;
  mret (extract_hash_and_chunks content).

Definition load_notebook (p : Path) : IO NotebookFile := fun w =>
  match nb_files w !! p with
  | Some data => (Ok {| path := p; nb_data := data |}, w)
  | None => (Raise (FileNotFoundError p), w)
  end.

(** [nb.execute(ep)]: the preprocessor updates the notebook in place. *)
Definition execute (nb : NotebookFile) (ep : Executor) : IO NotebookFile :=
  fun w =>
    let w' := set_kernel_log (kernel_log w ++ [nb_data nb]) w in
    match ep (nb_data nb) with
    | Some data => (Ok {| path := path nb; nb_data := data |}, w')
    | None => (Raise CellExecutionError, w')
    end.

(** [nb.write()] *)
Definition write (nb : NotebookFile) : IO unit := fun w =>
  (Ok tt, set_nb_files (<[path nb := nb_data nb]> (nb_files w)) w).

(** [nb.write_to_py(path, hash)] *)
Definition write_to_py (nb : NotebookFile) (p : Path) (hash : Py.str) : IO unit :=
  write_text p (py_text (nb_data nb) hash).

(** ** The reconciliation engine *)

Definition py_path_of (py_dir stem : Py.str) : Path :=
  (py_dir, stem ++ Py.lit ".py").

Definition nb_path_of (nb_dir stem : Py.str) : Path :=
  (nb_dir, stem ++ Py.lit ".ipynb").

(** The end of [process_file_pair], from the two fingerprints on: the
    decision once both files are loaded. *)
Definition decide_pair (stem : Py.str) (py_path nb_path : Path)
    (ref_hash : option Py.str) (nb nb_from_py : NotebookFile) (ep : Executor)
  : IO NotebookFile :=
  let nb_hash := compute_hash (nb_data nb) in
  let py_hash := compute_hash (nb_data nb_from_py) in
  match ref_hash with
  | None => raise (SystemExit (UnrecognizedFlatFile py_path nb_path))
  | Some ref_hash =>
      if Py.str_eqb ref_hash nb_hash && Py.str_eqb nb_hash py_hash then
        mret nb
      else if Py.str_eqb ref_hash py_hash && negb (Py.str_eqb ref_hash nb_hash) then
        mret nb
      else if Py.str_eqb ref_hash nb_hash && negb (Py.str_eqb ref_hash py_hash) then
        nb' ← execute nb_from_py ep;
        print (py_path, nb_path);;
        mret nb'
      else raise (SystemExit (Conflict stem py_path true))
  end.

Definition process_file_pair (stem py_dir nb_dir : Py.str) (ep : Executor)
  : IO NotebookFile :=
  let py_path := py_path_of py_dir stem in
  let nb_path := nb_path_of nb_dir stem in
  py_exists ← py_exists py_path;
  nb_exists ← nb_exists nb_path;
  if negb py_exists && nb_exists then
    nb ← load_notebook nb_path;
    print (nb_path, py_path);;
    mret nb
  else if negb nb_exists && py_exists then
    '(hash_val, chunks) ← load_python_file py_path;
    let nb := from_code_cells nb_path chunks in
    print (py_path, nb_path);;
    execute nb ep
  else if negb (nb_exists && py_exists) then raise AssertionError
  else
    '(ref_hash, chunks) ← load_python_file py_path;
    nb ← load_notebook nb_path;
    let nb_from_py := from_code_cells nb_path chunks in
    decide_pair stem py_path nb_path ref_hash nb nb_from_py ep.

(** The body of the loop of [main]: write both files from the authoritative
    notebook.  A [NotebookFile] object is always true, so that the test
    [if nb] of the source always passes. *)
Definition main_step (PY_DIR NB_DIR : Py.str) (ep : Executor) (stem : Py.str)
  : IO unit :=
  nb ← process_file_pair stem PY_DIR NB_DIR ep;
  write nb;;
  let hash_val := compute_hash (nb_data nb) in
  let py_path := py_path_of PY_DIR stem in
  write_to_py nb py_path hash_val.

(** The loop of [main] over the stems, in the order the set yields them.  An
    exception ends the run. *)
Fixpoint main_loop (PY_DIR NB_DIR : Py.str) (ep : Executor)
    (all_stems : list Py.str) : IO unit :=
  match all_stems with
  | [] => mret tt
  | stem :: rest =>
      main_step PY_DIR NB_DIR ep stem;;
      main_loop PY_DIR NB_DIR ep rest
  end.

(** ** Documents the flat form gives back

    A source that comes back unchanged as one code chunk: no white space
    around it, no line break but line feeds, no delimiter line once a line
    feed follows it, and not wrapped in the markdown bracket. *)
Definition plain_source (s : Py.str) : bool :=
  Py.str_eqb (Py.strip s) s
  && forallb (fun c => negb (Py.islinebreak c) || (c =? Py.LF)%N) s
  && negb (Py.contains (s ++ [Py.LF]) HEADER_COMMENT)
  && negb (Py.startswith s TRIPLE_QUOTE && Py.endswith s TRIPLE_QUOTE).

Definition is_code (c : Cell) : bool :=
  match c with
  | CodeCell _ _ _ _ => true
  | _ => false
  end.

(** A notebook of code cells with plain sources, whose last cell is not empty
    unless it is the only one. *)
Definition plain_notebook (nb : NotebookNode) : Prop :=
  Forall (fun c => is_code c = true /\ plain_source (cell_source c) = true)
    (cells nb)
  /\ (sources nb = [[]] \/ List.last (sources nb) [] <> []).

(** The provision of the round-trip property in its widest reading: the
    text of a cell holds no cell marker at all, and the text of a markdown
    cell neither begins nor ends with the bracket. *)
Definition free_of_tokens (c : Cell) : bool :=
  match c with
  | MarkdownCell _ s =>
      negb (Py.contains s (Py.lit "# %%"))
      && negb (Py.startswith s TRIPLE_QUOTE)
      && negb (Py.endswith s TRIPLE_QUOTE)
  | CodeCell _ s _ _ => negb (Py.contains s (Py.lit "# %%"))
  | RawCell _ _ => false
  end.

(** The flat form of a notebook read back: [from_code_cells] on the chunks
    of [extract_hash_and_chunks]. *)
Definition read_back (p : Path) (nb : NotebookNode) (hash : Py.str)
  : NotebookNode :=
  nb_data (from_code_cells p (snd (extract_hash_and_chunks (py_text nb hash)))).

(** The same through a file: the text is written and read in text mode. *)
Definition reread (p : Path) (nb : NotebookNode) (hash : Py.str)
  : NotebookNode :=
  nb_data (from_code_cells p
             (snd (extract_hash_and_chunks
                     (Py.universal_newlines (py_text nb hash))))).

(** Two cells that differ at most in the outputs and the execution counter
    of a code cell. *)
Inductive execution_only_change : Cell -> Cell -> Prop :=
  | change_code m s o e o' e' :
      execution_only_change (CodeCell m s o e) (CodeCell m s o' e')
  | change_none c : execution_only_change c c.

(** What a cell built from a chunk carries besides its source. *)
Definition fresh_cell (c : Cell) : Prop :=
  match c with
  | CodeCell m _ o e => m = Json.Dict [] /\ o = [] /\ e = None
  | MarkdownCell m _ => m = Json.Dict []
  | RawCell _ _ => False
  end.

(** ** Sample documents and disks *)

Module Samples.

Definition notebook (cs : list Cell) : NotebookNode :=
  {| cells := cs; metadata := default_metadata;
     nbformat := 4; nbformat_minor := 4 |}.

Definition code (s : Py.str) : Cell := CodeCell (Json.Dict []) s [] None.

Definition markdown (s : Py.str) : Cell := MarkdownCell (Json.Dict []) s.

(** A code cell that was run: it has an output and a counter. *)
Definition run_code (s : Py.str) : Cell :=
  CodeCell (Json.Dict []) s [Json.Str (Py.lit "1")] (Some 1%Z).

Definition scripts : Py.str := Py.lit "scripts".
Definition notebooks : Py.str := Py.lit "notebooks".
Definition demo : Py.str := Py.lit "demo".
Definition demo_py : Path := py_path_of scripts demo.
Definition demo_ipynb : Path := nb_path_of notebooks demo.

(** A disk with at most the two files of [demo]. *)
Definition disk (py : option Py.str) (nb : option NotebookNode) : World :=
  {| py_files := from_option (fun t => {[ demo_py := t ]}) ∅ py;
     nb_files := from_option (fun d => {[ demo_ipynb := d ]}) ∅ nb;
     stdout := [];
     kernel_log := [] |}.

(** A kernel that numbers the code cells it runs. *)
Definition counting_kernel : Executor := fun nb =>
  Some {| cells :=
            map (fun c => match c with
                          | CodeCell m s _ _ => CodeCell m s [] (Some 1%Z)
                          | _ => c
                          end) (cells nb);
          metadata := metadata nb;
          nbformat := nbformat nb;
          nbformat_minor := nbformat_minor nb |}.

(** A kernel that fails on every notebook. *)
Definition failing_kernel : Executor := fun _ => None.

Definition two_cells : NotebookNode :=
  notebook [code (Py.lit "import os"); code (Py.lit "x = 1" ++ [Py.LF] ++ Py.lit "y = 2")].

(** Both sides were edited since the flat file was written from a notebook
    with the source [c = 3]. *)
Definition conflict_disk : World :=
  disk (Some (py_text (notebook [code (Py.lit "b = 2")])
                (compute_hash (notebook [code (Py.lit "c = 3")]))))
       (Some (notebook [run_code (Py.lit "a = 1")])).

(** The flat file was edited since it was written from the notebook. *)
Definition flat_edited_disk : World :=
  disk (Some (py_text (notebook [code (Py.lit "b = 2")])
                (compute_hash (notebook [code (Py.lit "a = 1")]))))
       (Some (notebook [run_code (Py.lit "a = 1")])).

(** The notebook was edited since the flat file was written from it. *)
Definition notebook_edited_disk : World :=
  disk (Some (py_text (notebook [code (Py.lit "b = 2")])
                (compute_hash (notebook [code (Py.lit "b = 2")]))))
       (Some (notebook [run_code (Py.lit "a = 1")])).

(** A flat file without annotation next to a notebook, and alone. *)
Definition unannotated_pair_disk : World :=
  disk (Some (Py.lit "a = 1")) (Some (notebook [run_code (Py.lit "a = 1")])).

Definition unannotated_alone_disk : World :=
  disk (Some (Py.lit "a = 1")) None.

(** A notebook alone. *)
Definition notebook_alone_disk : World :=
  disk None (Some two_cells).

(** A pair in step, with plain code cells. *)
Definition in_step_disk : World :=
  disk (Some (py_text two_cells (compute_hash two_cells))) (Some two_cells).

(** A pair in step whose notebook has a markdown cell: the cell text is
    [hi] between two line feeds, and the flat file wraps [hi] in brackets. *)
Definition titled : NotebookNode :=
  notebook [markdown ([Py.LF] ++ Py.lit "hi" ++ [Py.LF])].

Definition titled_flat : Py.str :=
  HASH_PREFIX ++ compute_hash titled ++ [Py.LF]
  ++ TRIPLE_QUOTE ++ [Py.LF] ++ Py.lit "hi" ++ [Py.LF] ++ TRIPLE_QUOTE.

Definition titled_disk : World := disk (Some titled_flat) (Some titled).

End Samples.

(** ** Disks with the same files *)

(** Two worlds whose disks hold the same files; what was printed and what
    the kernel was given may differ. *)
Definition same_files (w w0 : World) : Prop :=
  py_files w = py_files w0 /\ nb_files w = nb_files w0.

(** ** The flat form, chunk by chunk *)

(** A chunk that a flat text gives back as it is: no white space around it,
    no line break but line feeds, and no delimiter line once a line feed
    follows it. *)
Definition stable_chunk (c : Py.str) : bool :=
  Py.str_eqb (Py.strip c) c
  && forallb (fun x => negb (Py.islinebreak x) || (x =? Py.LF)%N) c
  && negb (Py.contains (c ++ [Py.LF]) HEADER_COMMENT).

(** A chunk that begins and ends with the bracket. *)
Definition bracketed (c : Py.str) : bool :=
  Py.startswith c TRIPLE_QUOTE && Py.endswith c TRIPLE_QUOTE.

(** What a cell becomes when its chunk is written and read: a markdown cell
    has a line feed more on each side, a code cell has lost its outputs, and
    a cell of another type is gone. *)
Definition cell_read_back (c : Cell) : list Cell :=
  match c with
  | MarkdownCell _ s =>
      [MarkdownCell (Json.Dict []) ([Py.LF] ++ s ++ [Py.LF])]
  | CodeCell _ s _ _ => [CodeCell (Json.Dict []) s [] None]
  | RawCell _ _ => []
  end.

(** A lower-case hexadecimal digit. *)
Definition is_hex (c : Py.char) : bool :=
  ((48 <=? c) && (c <=? 57) || (97 <=? c) && (c <=? 102))%N.

(** ** The whole of [main]

    The environment is the one [load_dotenv] leaves.  A directory is named
    by the string of its variable, and the disk holds files only. *)

(** [s.rfind(c)] for a character [c]: the index of its last occurrence. *)
Fixpoint rfind_from (c : Py.char) (s : Py.str) (i : nat) (found : option nat)
  : option nat :=
  match s with
  | [] => found
  | x :: s' => rfind_from c s' (S i) (if (x =? c)%N then Some i else found)
  end.

Definition rfind (c : Py.char) (s : Py.str) : option nat := rfind_from c s 0 None.

(** [Path.stem]: the name up to its last dot, when that dot is neither the
    first nor the last character. *)
Definition stem_of (name : Py.str) : Py.str :=
  match rfind 46%N name with
  | Some i =>
      if (0 <? i)%nat && (i <? length name - 1)%nat then firstn i name
      else name
  | None => name
  end.

(** The names of the files of a directory. *)
Definition listdir (w : World) (dir : Py.str) : list Py.str :=
  map snd
    (List.filter (fun p : Path => bool_decide (fst p = dir))
       (map fst (map_to_list (py_files w))
        ++ map fst (map_to_list (nb_files w)))).

(** [dir.glob(pattern)] for a pattern that is a star and a suffix. *)
Definition glob (w : World) (dir suffix : Py.str) : list Py.str :=
  List.filter (fun name => Py.endswith name suffix) (listdir w dir).

(** The stems [main] collects: those of the files [*.py] of [NB_DIR] and of
    the files [*.ipynb] of [PY_DIR]. *)
Definition all_stems (w : World) (PY_DIR NB_DIR : Py.str) : gset (list N) :=
  list_to_set (map stem_of (glob w NB_DIR (Py.lit ".py")))
  ∪ list_to_set (map stem_of (glob w PY_DIR (Py.lit ".ipynb"))).

(** An order in which a set yields its elements. *)
Definition enumerates (order : list Py.str) (stems : gset (list N)) : Prop :=
  NoDup order /\ forall s, s ∈ order <-> s ∈ stems.

Definition SCRIPT_DIR : Py.str := Eval cbv in Py.lit "SCRIPT_DIR".
Definition NOTEBOOK_DIR : Py.str := Eval cbv in Py.lit "NOTEBOOK_DIR".

(** How [main] ends: with the exit that names a missing variable, before
    any file is looked at, or after its loop. *)
Inductive MainOutcome : Type :=
  | ConfigurationMissing (variable : Py.str)
  | Visited (r : Result unit) (w : World).

(** [main], with the order in which the set of stems yields them. *)
Definition main (environ : gmap (list N) (list N)) (ep : Executor)
    (order : list Py.str) (w : World) : MainOutcome :=
  match environ !! SCRIPT_DIR with
  | None => ConfigurationMissing SCRIPT_DIR
  | Some PY_DIR =>
      match environ !! NOTEBOOK_DIR with
      | None => ConfigurationMissing NOTEBOOK_DIR
      | Some NB_DIR =>
          let '(r, w') := main_loop PY_DIR NB_DIR ep order w in
          Visited r w'
      end
  end.

(** ** More sample disks *)

Module MoreSamples.

Import Samples.

Definition other : Py.str := Py.lit "other".

(** Two notebooks, each without its flat file. *)
Definition two_notebooks_disk : World :=
  {| py_files := ∅;
     nb_files := <[nb_path_of notebooks other :=
                     notebook [markdown (Py.lit "notes")]]>
                   {[ demo_ipynb := two_cells ]};
     stdout := [];
     kernel_log := [] |}.

(** The environment with the two directories. *)
Definition environ : gmap (list N) (list N) :=
  <[NOTEBOOK_DIR := notebooks]> {[ SCRIPT_DIR := scripts ]}.

End MoreSamples.

(** * Properties *)

(** ** The digest on the test vectors of RFC 1321 *)

Example md5_empty :
  md5_hexdigest [] = Py.lit "d41d8cd98f00b204e9800998ecf8427e".
Proof. vm_compute. reflexivity. Qed.

Example md5_abc :
  md5_hexdigest (bytes_of_lit "abc") = Py.lit "900150983cd24fb0d6963f7d28e17f72".
Proof. vm_compute. reflexivity. Qed.

Example md5_padding_block :
  md5_hexdigest (bytes_of_lit
    "ABCDEFGHIJKLMNOPQRSTUVWXYZabcdefghijklmnopqrstuvwxyz0123456789")
  = Py.lit "d174ab98d277d9f5a5611c2c9f419d9f".
Proof. vm_compute. reflexivity. Qed.

Example md5_two_blocks :
  md5_hexdigest (bytes_of_lit
    "12345678901234567890123456789012345678901234567890123456789012345678901234567890")
  = Py.lit "57edf4a22be3c955ac49da2e2107b67a".
Proof. vm_compute. reflexivity. Qed.

(** ** The string operations and the hasher on sample values *)

Example splitlines_sample :
  Py.splitlines ([97; 13; 10; 98; 13; 99; 10; 10; 100; 12; 101; 8232; 102; 10]%N)
  = [[97]; [98]; [99]; []; [100]; [101]; [102]]%N.
Proof. reflexivity. Qed.

Example split_sample :
  Py.split (Py.lit "a# %%" ++ [Py.LF] ++ Py.lit "b# %%# %%"
            ++ [Py.LF; Py.LF] ++ Py.lit "# %%" ++ [Py.LF]) HEADER_COMMENT
  = [Py.lit "a"; Py.lit "b# %%"; [Py.LF]; []].
Proof. reflexivity. Qed.

Example strip_sample :
  Py.strip ([32; 9]%N ++ Py.lit "# x" ++ [10; 11; 31; 133; 160; 8195]%N)
  = Py.lit "# x".
Proof. reflexivity. Qed.

Example slice_sample :
  Py.slice (Py.lit "abcdefgh") 3 (-3) = Py.lit "de"
  /\ Py.slice (Py.lit "abcd") 3 (-3) = [].
Proof. split; reflexivity. Qed.

(** The fingerprint of sources with characters of every kind of escape. *)
Example compute_hash_sample :
  compute_hash
    (Samples.notebook
       [Samples.markdown (Py.lit "hi"); Samples.code (Py.lit "a = 1");
        Samples.code [32; 233; 10; 9; 200; 8232; 128512; 127; 0; 31; 34; 92;
                      8; 12; 13; 65535; 65536; 1114111]%N])
  = Py.lit "e92f7c2ce974e0573a473337731488e1".
Proof. vm_compute. reflexivity. Qed.

Example compute_hash_no_cells :
  compute_hash (Samples.notebook []) = Py.lit "d751713988987e9331980363e24189ce".
Proof. vm_compute. reflexivity. Qed.

(** ** Facts about the string operations *)

Module PyFacts.

Import Py.

Lemma str_eqb_eq (a b : str) : str_eqb a b = true <-> a = b.
Proof.
  revert b. induction a as [|x a IH]; intros [|y b]; simpl; split;
    try discriminate; try reflexivity.
  - intros H. apply andb_true_iff in H as [H1 H2].
    apply N.eqb_eq in H1. apply IH in H2. congruence.
  - intros H. injection H as -> ->. rewrite N.eqb_refl. simpl.
    apply IH. reflexivity.
Qed.

Lemma str_eqb_refl (a : str) : str_eqb a a = true.
Proof. apply str_eqb_eq. reflexivity. Qed.

Lemma str_eqb_neq (a b : str) : str_eqb a b = false <-> a <> b.
Proof.
  split.
  - intros H E. apply str_eqb_eq in E. congruence.
  - intros H. destruct (str_eqb a b) eqn:E; [|reflexivity].
    apply str_eqb_eq in E. contradiction.
Qed.

Lemma startswith_app (p r : str) : startswith (p ++ r) p = true.
Proof.
  induction p as [|y p IH]; simpl; [reflexivity|].
  rewrite N.eqb_refl. exact IH.
Qed.

Lemma startswith_app_l (s t p : str) :
  startswith s p = true -> startswith (s ++ t) p = true.
Proof.
  revert s. induction p as [|y p IH]; intros s; simpl; [reflexivity|].
  destruct s as [|x s]; simpl; [discriminate|].
  intros H. apply andb_true_iff in H as [H1 H2].
  rewrite H1. simpl. apply IH. exact H2.
Qed.

Lemma startswith_inv (s p : str) :
  startswith s p = true -> s = p ++ skipn (length p) s.
Proof.
  revert s. induction p as [|y p IH]; intros s; simpl; [reflexivity|].
  destruct s as [|x s]; [discriminate|].
  intros H. apply andb_true_iff in H as [H1 H2].
  apply N.eqb_eq in H1. subst y. simpl. f_equal. apply IH. exact H2.
Qed.

(** A separator that ends with its only line feed cannot begin inside a text
    that ends with a line feed and run past its end. *)
Lemma startswith_lf_closed (body u v : str) :
  Forall (fun c => c <> LF) body ->
  startswith (u ++ [LF]) (body ++ [LF]) = false ->
  startswith (u ++ [LF] ++ v) (body ++ [LF]) = false.
Proof.
  intros Hb. revert u. induction Hb as [|b body Hne Hb IH]; intros u.
  - destruct u as [|c u]; cbn [app startswith].
    + rewrite N.eqb_refl. discriminate.
    + intros H. exact H.
  - destruct u as [|c u]; cbn [app startswith].
    + intros _. destruct (N.eqb_spec LF b) as [E|E]; [|reflexivity].
      symmetry in E. contradiction.
    + intros H. destruct (c =? b)%N; [|reflexivity].
      rewrite andb_true_l in *. apply IH. exact H.
Qed.

Lemma contains_cons (c : char) (s sub : str) :
  contains (c :: s) sub = startswith (c :: s) sub || contains s sub.
Proof. reflexivity. Qed.

Lemma contains_app_l (s t sub : str) :
  contains (s ++ t) sub = false -> contains s sub = false.
Proof.
  induction s as [|c s IH].
  - cbn [app]. destruct sub as [|y sub]; [|reflexivity].
    destruct t; discriminate.
  - simpl app. rewrite !contains_cons. intros H.
    apply orb_false_iff in H as [H1 H2].
    rewrite (IH H2), orb_false_r.
    destruct (startswith (c :: s) sub) eqn:E; [|reflexivity].
    apply (startswith_app_l _ t) in E. simpl app in E. congruence.
Qed.

Lemma partition_hit (sep s : str) :
  startswith s sep = true ->
  partition sep s = Some ([], skipn (length sep) s).
Proof. intros H. destruct s; simpl; rewrite H; reflexivity. Qed.

Lemma partition_miss (sep : str) (c : char) (s : str) :
  startswith (c :: s) sep = false ->
  partition sep (c :: s) =
    match partition sep s with
    | Some (a, b) => Some (c :: a, b)
    | None => None
    end.
Proof. intros H. cbn [partition]. rewrite H. reflexivity. Qed.

Lemma partition_None (sep s : str) :
  contains s sep = false -> partition sep s = None.
Proof.
  induction s as [|c s IH].
  - simpl. intros H. rewrite orb_false_r in H. rewrite H. reflexivity.
  - rewrite contains_cons. intros H. apply orb_false_iff in H as [H1 H2].
    rewrite (partition_miss _ _ _ H1), (IH H2). reflexivity.
Qed.

Lemma partition_spec (sep s a b : str) :
  partition sep s = Some (a, b) -> s = a ++ sep ++ b.
Proof.
  revert a b. induction s as [|c s IH]; intros a b.
  - simpl. destruct (startswith [] sep) eqn:E; [|discriminate].
    intros H. injection H as <- <-. simpl. apply (startswith_inv _ _ E).
  - destruct (startswith (c :: s) sep) eqn:E.
    + rewrite (partition_hit _ _ E). intros H. injection H as <- <-.
      simpl app. apply (startswith_inv _ _ E).
    + rewrite (partition_miss _ _ _ E).
      destruct (partition sep s) as [[a' b']|]; [|discriminate].
      intros H. injection H as <- <-. simpl. f_equal. apply IH. reflexivity.
Qed.

Lemma partition_nil (sep : str) : sep <> [] -> partition sep [] = None.
Proof. intros H. destruct sep; [contradiction|reflexivity]. Qed.

(** [length s] rounds are enough: more rounds give the same list. *)
Lemma split_n_enough (sep : str) (n m : nat) (s : str) :
  sep <> [] -> length s <= n -> length s <= m ->
  split_n n sep s = split_n m sep s.
Proof.
  intros Hsep. revert m s. induction n as [|n IH]; intros m s Hn Hm.
  - destruct s; [|simpl in Hn; lia].
    destruct m; cbn [split_n]; rewrite (partition_nil _ Hsep); reflexivity.
  - destruct m as [|m].
    + destruct s; [|simpl in Hm; lia].
      cbn [split_n]. rewrite (partition_nil _ Hsep). reflexivity.
    + cbn [split_n]. destruct (partition sep s) as [[a b]|] eqn:E; [|reflexivity].
      f_equal. apply partition_spec in E. subst s.
      rewrite !length_app in Hn, Hm.
      assert (0 < length sep) by (destruct sep; [contradiction|simpl; lia]).
      apply IH; lia.
Qed.

Lemma split_found (sep s a b : str) :
  sep <> [] -> partition sep s = Some (a, b) ->
  split s sep = a :: split b sep.
Proof.
  intros Hsep E. unfold split.
  pose proof (partition_spec _ _ _ _ E) as Hs.
  assert (0 < length sep) by (destruct sep; [contradiction|simpl; lia]).
  destruct (length s) as [|n] eqn:Hlen.
  - subst s. rewrite !length_app in Hlen. lia.
  - cbn [split_n]. rewrite E. f_equal.
    apply split_n_enough; [exact Hsep| |lia].
    subst s. rewrite !length_app in Hlen. lia.
Qed.

Lemma split_not_found (sep s : str) :
  partition sep s = None -> split s sep = [s].
Proof.
  intros E. unfold split. destruct (length s); cbn [split_n]; rewrite E; reflexivity.
Qed.

Lemma split_nonempty (sep s : str) : split s sep <> [].
Proof.
  unfold split. destruct (length s); cbn [split_n];
    destruct (partition sep s) as [[a b]|]; discriminate.
Qed.

Lemma join_cons_cons (sep x y : str) (l : list str) :
  join sep (x :: y :: l) = x ++ sep ++ join sep (y :: l).
Proof. reflexivity. Qed.

Lemma join_head (sep : str) (c : char) (l : str) (ls : list str) :
  join sep ((c :: l) :: ls) = c :: join sep (l :: ls).
Proof. destruct ls; reflexivity. Qed.

Lemma splitlines_nil_inv (s : str) : splitlines s = [] -> s = [].
Proof.
  destruct s as [|c s]; [reflexivity|]. cbn [splitlines].
  destruct (islinebreak c).
  - destruct s as [|d s]; [discriminate|].
    destruct ((c =? CR)%N && (d =? LF)%N); discriminate.
  - destruct (splitlines s); discriminate.
Qed.

(** A first line without line breaks, closed by a line feed. *)
Lemma splitlines_line (p rest : str) :
  Forall (fun c => islinebreak c = false) p ->
  splitlines (p ++ LF :: rest) = p :: splitlines rest.
Proof.
  induction 1 as [|c p Hc Hp IH]; cbn [app splitlines].
  - change (islinebreak LF) with true. cbv iota.
    destruct rest as [|d rest]; reflexivity.
  - rewrite Hc, IH. reflexivity.
Qed.

Lemma endswith_app_char (s t : str) (w : char) :
  t <> [] -> endswith (s ++ t) [w] = endswith t [w].
Proof.
  intros Ht. unfold endswith. rewrite rev_app_distr.
  destruct (rev t) as [|x r] eqn:E.
  - apply (f_equal (@length N)) in E. rewrite length_rev in E.
    destruct t; [contradiction|discriminate].
  - reflexivity.
Qed.

Lemma endswith_cons_char (c : char) (s : str) (w : char) :
  s <> [] -> endswith (c :: s) [w] = endswith s [w].
Proof. apply (endswith_app_char [c]). Qed.

Lemma join_splitlines_gen (s : str) :
  only_lf s ->
  join [LF] (splitlines s) ++ (if endswith s [LF] then [LF] else []) = s.
Proof.
  induction 1 as [|c s Hc Hs IH]; [reflexivity|].
  cbn [splitlines]. destruct (islinebreak c) eqn:Eb.
  - rewrite (Hc eq_refl) in *. destruct s as [|d s]; [reflexivity|].
    change ((LF =? CR)%N && (d =? LF)%N) with false. cbv iota.
    rewrite endswith_cons_char by discriminate.
    destruct (splitlines (d :: s)) as [|l ls] eqn:El.
    + apply splitlines_nil_inv in El. discriminate.
    + rewrite join_cons_cons. cbn [app]. f_equal. exact IH.
  - destruct (splitlines s) as [|l ls] eqn:El.
    + apply splitlines_nil_inv in El. subst s. cbn [join app].
      unfold endswith. cbn [rev app startswith].
      destruct (N.eqb_spec c LF) as [->|_]; [discriminate Eb|reflexivity].
    + assert (s <> []) by (intros ->; discriminate El).
      rewrite join_head, endswith_cons_char by assumption.
      cbn [app]. f_equal. exact IH.
Qed.

(** Joining the lines again gives the text back when it has no line break
    but line feeds and does not end with one. *)
Lemma join_splitlines (s : str) :
  only_lf s -> endswith s [LF] = false -> join [LF] (splitlines s) = s.
Proof.
  intros H E. pose proof (join_splitlines_gen s H) as G.
  rewrite E, app_nil_r in G. exact G.
Qed.

Lemma universal_newlines_line (p rest : str) :
  Forall (fun c => islinebreak c = false) p ->
  universal_newlines (p ++ LF :: rest) = p ++ LF :: universal_newlines rest.
Proof.
  induction 1 as [|c p Hc Hp IH]; [reflexivity|].
  cbn [app universal_newlines]. rewrite IH.
  destruct (N.eqb_spec c CR) as [->|_]; [discriminate Hc|reflexivity].
Qed.

Lemma universal_newlines_id (s : str) :
  Forall (fun c => c <> CR) s -> universal_newlines s = s.
Proof.
  induction 1 as [|c s Hc Hs IH]; [reflexivity|].
  cbn [universal_newlines]. rewrite IH.
  destruct (N.eqb_spec c CR) as [E|_]; [contradiction|reflexivity].
Qed.

Lemma lstrip_app (s t : str) :
  lstrip s <> [] -> lstrip (s ++ t) = lstrip s ++ t.
Proof.
  induction s as [|c s IH]; cbn [lstrip app]; [contradiction|].
  destruct (isspace c); [exact IH|reflexivity].
Qed.

Lemma lstrip_app_nil (s t : str) :
  lstrip s = [] -> lstrip (s ++ t) = lstrip t.
Proof.
  induction s as [|c s IH]; cbn [lstrip app]; [reflexivity|].
  destruct (isspace c); [exact IH|discriminate].
Qed.

Lemma rstrip_snoc (s : str) (w : char) :
  isspace w = true -> rstrip (s ++ [w]) = rstrip s.
Proof.
  intros Hw. unfold rstrip. rewrite rev_app_distr. cbn [rev app lstrip].
  rewrite Hw. reflexivity.
Qed.

(** A white space character after the text does not change what [strip]
    leaves. *)
Lemma strip_snoc (s : str) (w : char) :
  isspace w = true -> strip (s ++ [w]) = strip s.
Proof.
  intros Hw. unfold strip. destruct (lstrip s) as [|c l] eqn:E.
  - rewrite (lstrip_app_nil _ _ E). cbn [lstrip]. rewrite Hw. reflexivity.
  - rewrite lstrip_app by (rewrite E; discriminate).
    rewrite E. apply rstrip_snoc. exact Hw.
Qed.

Lemma lstrip_head (s : str) (w : char) :
  isspace w = true -> startswith (lstrip s) [w] = false.
Proof.
  intros Hw. induction s as [|c s IH]; cbn [lstrip]; [reflexivity|].
  destruct (isspace c) eqn:Ec; [exact IH|].
  cbn [startswith]. destruct (N.eqb_spec c w) as [->|_]; [congruence|reflexivity].
Qed.

Lemma strip_last (s : str) (w : char) :
  isspace w = true -> endswith (strip s) [w] = false.
Proof.
  intros Hw. unfold strip, rstrip, endswith. rewrite rev_involutive.
  apply lstrip_head. exact Hw.
Qed.

End PyFacts.

(** ** Facts about the converter *)

Module ConverterFacts.

Import Py PyFacts.

Lemma header_not_nil : HEADER_COMMENT <> [].
Proof. discriminate. Qed.

Lemma slice_from_app (p r : str) :
  slice_from (p ++ r) (Z.of_nat (length p)) = r.
Proof.
  unfold slice_from, norm_index.
  destruct (Z.ltb_spec (Z.of_nat (length p)) 0) as [H|_]; [lia|].
  rewrite Nat2Z.id, length_app, Nat.min_l by lia.
  rewrite skipn_app, skipn_all, Nat.sub_diag. reflexivity.
Qed.

(** The first cut of a chunk followed by the separator is at the separator. *)
Lemma partition_chunk (c rest : str) :
  contains (c ++ [LF]) HEADER_COMMENT = false ->
  partition HEADER_COMMENT (c ++ CHUNK_SEP ++ rest) = Some (c ++ [LF], rest).
Proof.
  induction c as [|x c IH].
  - intros _. change ([] ++ CHUNK_SEP ++ rest) with (LF :: HEADER_COMMENT ++ rest).
    rewrite partition_miss by reflexivity.
    rewrite partition_hit by apply startswith_app. reflexivity.
  - cbn [app]. rewrite contains_cons. intros H.
    apply orb_false_iff in H as [H1 H2].
    rewrite partition_miss.
    + rewrite (IH H2). reflexivity.
    + change (x :: c ++ CHUNK_SEP ++ rest)
        with ((x :: c) ++ [LF] ++ HEADER_COMMENT ++ rest).
      change HEADER_COMMENT with ([35; 32; 37; 37]%N ++ [LF]) at 2.
      apply startswith_lf_closed.
      * repeat constructor; discriminate.
      * exact H1.
Qed.

(** Splitting the joined chunks gives the chunks back, up to the white space
    [strip] removes. *)
Lemma split_join_chunks (chunks : list str) :
  chunks <> [] ->
  Forall (fun c => contains (c ++ [LF]) HEADER_COMMENT = false) chunks ->
  map strip (split (join CHUNK_SEP chunks) HEADER_COMMENT) = map strip chunks.
Proof.
  intros Hne H. induction H as [|c l Hc Hl IH]; [contradiction|].
  destruct l as [|c' l].
  - cbn [join]. rewrite split_not_found; [reflexivity|].
    apply partition_None. apply (contains_app_l _ [LF]). exact Hc.
  - rewrite join_cons_cons.
    rewrite (split_found _ _ _ _ header_not_nil (partition_chunk _ _ Hc)).
    cbn [map]. rewrite strip_snoc by reflexivity.
    f_equal. apply IH. discriminate.
Qed.

Lemma only_lf_app (s t : str) : only_lf s -> only_lf t -> only_lf (s ++ t).
Proof. unfold only_lf. intros Hs Ht. apply Forall_app. split; assumption. Qed.

Lemma only_lf_join (chunks : list str) :
  Forall only_lf chunks -> only_lf (join CHUNK_SEP chunks).
Proof.
  induction 1 as [|c l Hc Hl IH]; [constructor|].
  destruct l as [|c' l]; [exact Hc|].
  rewrite join_cons_cons. apply only_lf_app; [exact Hc|].
  apply only_lf_app; [|exact IH].
  repeat constructor; intros E; try reflexivity; discriminate E.
Qed.

Lemma join_not_nil (sep : str) (chunks : list str) :
  List.last chunks [] <> [] -> join sep chunks <> [].
Proof.
  induction chunks as [|c l IH]; [intros H; contradiction|].
  destruct l as [|c' l]; [intros H; exact H|].
  intros H E. rewrite join_cons_cons in E.
  apply app_eq_nil in E as [_ E]. apply app_eq_nil in E as [_ E].
  exact (IH H E).
Qed.

Lemma join_last (sep : str) (chunks : list str) (w : char) :
  List.last chunks [] <> [] ->
  endswith (join sep chunks) [w] = endswith (List.last chunks []) [w].
Proof.
  induction chunks as [|c l IH]; [intros H; contradiction|].
  destruct l as [|c' l]; [reflexivity|].
  intros H. rewrite join_cons_cons.
  change (List.last (c :: c' :: l) []) with (List.last (c' :: l) []) in *.
  rewrite <- (IH H). rewrite app_assoc. apply endswith_app_char.
  apply join_not_nil. exact H.
Qed.

(** What [extract_hash_and_chunks] reads from a text with the annotation
    line on top. *)
Lemma extract_annotated (hash body : str) :
  Forall (fun c => islinebreak c = false) hash ->
  extract_hash_and_chunks (HASH_PREFIX ++ (hash ++ [LF]) ++ body) =
    (Some hash,
     map strip (split (join [LF] (splitlines body)) HEADER_COMMENT)).
Proof.
  intros Hh. unfold extract_hash_and_chunks.
  rewrite startswith_app.
  replace (HASH_PREFIX ++ (hash ++ [LF]) ++ body)
    with ((HASH_PREFIX ++ hash) ++ LF :: body)
    by (rewrite <- !app_assoc; reflexivity).
  rewrite splitlines_line.
  - cbn [hd tl]. rewrite slice_from_app. reflexivity.
  - apply Forall_app. split; [|exact Hh].
    repeat constructor.
Qed.

Lemma hexdigit_ascii (d : Z) : (0 <= d < 16)%Z -> (hexdigit d < 128)%N.
Proof.
  intros H. unfold hexdigit. destruct (d <? 10)%Z; lia.
Qed.

Lemma uescape_ascii (n : Z) : Forall (fun c => (c < 128)%N) (Json.uescape n).
Proof.
  unfold Json.uescape, Json.hex4.
  repeat constructor; apply hexdigit_ascii; apply Z.mod_pos_bound; reflexivity.
Qed.

Lemma escape_char_ascii (c : char) :
  Forall (fun x => (x < 128)%N) (Json.escape_char c).
Proof.
  unfold Json.escape_char.
  repeat (destruct (c =? _)%N; [repeat constructor|]).
  destruct ((32 <=? c) && (c <=? 126))%N eqn:E.
  - apply andb_true_iff in E as [_ E]. apply N.leb_le in E.
    repeat constructor. lia.
  - destruct (c <? 65536)%N; [apply uescape_ascii|].
    apply Forall_app. split; apply uescape_ascii.
Qed.

(** The text [json.dumps] gives is ASCII, and its encoding has one byte for
    each character. *)
Lemma dumps_ascii (l : list str) : Forall (fun c => (c < 128)%N) (Json.dumps l).
Proof.
  unfold Json.dumps. apply Forall_app. split; [repeat constructor|].
  apply Forall_app. split; [|repeat constructor].
  assert (H : Forall (Forall (fun c => (c < 128)%N)) (map Json.dumps_str l)).
  { apply Forall_map. apply Forall_forall. intros s _. unfold Json.dumps_str.
    apply Forall_app. split; [repeat constructor|].
    apply Forall_app. split; [|repeat constructor].
    induction s as [|c s IH]; [constructor|].
    cbn [flat_map]. apply Forall_app. split; [apply escape_char_ascii|exact IH]. }
  induction H as [|x xs Hx Hxs IH]; [constructor|].
  destruct xs as [|y xs]; [exact Hx|].
  rewrite join_cons_cons. apply Forall_app. split; [exact Hx|].
  apply Forall_app. split; [repeat constructor|exact IH].
Qed.

Lemma encode_ascii (s : str) :
  Forall (fun c => (c < 128)%N) s -> Json.encode s = map Z.of_N s.
Proof.
  induction 1 as [|c s Hc Hs IH]; [reflexivity|].
  unfold Json.encode in *. cbn [flat_map map]. rewrite IH.
  unfold Json.encode_char.
  destruct (Z.ltb_spec (Z.of_N c) 128) as [_|E]; [reflexivity|lia].
Qed.

Lemma hexdigit_no_break (d : Z) :
  (0 <= d < 16)%Z -> islinebreak (hexdigit d) = false.
Proof.
  intros H.
  assert (d = 0 \/ d = 1 \/ d = 2 \/ d = 3 \/ d = 4 \/ d = 5 \/ d = 6
          \/ d = 7 \/ d = 8 \/ d = 9 \/ d = 10 \/ d = 11 \/ d = 12
          \/ d = 13 \/ d = 14 \/ d = 15)%Z as E by lia.
  repeat (destruct E as [->|E]; [reflexivity|]). subst d. reflexivity.
Qed.

Lemma le_bytes_range (n : nat) (x : Z) :
  Forall (fun b => 0 <= b < 256)%Z (MD5.le_bytes n x).
Proof.
  unfold MD5.le_bytes. apply Forall_map. apply Forall_forall.
  intros i _. apply Z.mod_pos_bound. reflexivity.
Qed.

Lemma digest_range (bs : list Z) :
  Forall (fun b => 0 <= b < 256)%Z (MD5.digest bs).
Proof.
  unfold MD5.digest.
  destruct (MD5.blocks _ _ _) as [[[a b] c] d].
  repeat (apply Forall_app; split); apply le_bytes_range.
Qed.

(** A hexadecimal digest holds no line break. *)
Lemma md5_hexdigest_no_break (bs : list Z) :
  Forall (fun c => islinebreak c = false) (md5_hexdigest bs).
Proof.
  unfold md5_hexdigest. induction (digest_range bs) as [|b l Hb Hl IH];
    [constructor|].
  cbn [map concat]. apply Forall_app. split; [|exact IH].
  unfold hexbyte. repeat constructor; apply hexdigit_no_break.
  - split; [apply Z.div_pos; lia|apply Z.div_lt_upper_bound; lia].
  - apply Z.mod_pos_bound. reflexivity.
Qed.

End ConverterFacts.

(** ** The round trip through the flat form *)

Section RoundTrip.

Import Py PyFacts ConverterFacts.

Lemma plain_source_inv (s : str) :
  plain_source s = true ->
  strip s = s /\ only_lf s
  /\ contains (s ++ [LF]) HEADER_COMMENT = false
  /\ startswith s TRIPLE_QUOTE && endswith s TRIPLE_QUOTE = false.
Proof.
  unfold plain_source. intros H.
  apply andb_true_iff in H as [H H4]. apply andb_true_iff in H as [H H3].
  apply andb_true_iff in H as [H1 H2].
  apply str_eqb_eq in H1. apply negb_true_iff in H3, H4.
  repeat split; try assumption.
  clear - H2. unfold only_lf. induction s as [|c s IH]; [constructor|].
  cbn [forallb] in H2. apply andb_true_iff in H2 as [Hc Hs].
  constructor; [|exact (IH Hs)].
  intros Hb. rewrite Hb in Hc. apply N.eqb_eq. exact Hc.
Qed.

Lemma py_chunks_code (nb : NotebookNode) :
  Forall (fun c => is_code c = true) (cells nb) -> py_chunks nb = sources nb.
Proof.
  unfold py_chunks, sources. induction 1 as [|c l Hc Hl IH]; [reflexivity|].
  cbn [flat_map map]. rewrite IH.
  destruct c; try discriminate Hc. reflexivity.
Qed.

Lemma cell_of_plain_chunk (s : str) :
  startswith s TRIPLE_QUOTE && endswith s TRIPLE_QUOTE = false ->
  cell_of_chunk s = CodeCell (Json.Dict []) s [] None.
Proof. intros H. unfold cell_of_chunk. rewrite H. reflexivity. Qed.

(** Reading the flat form of a plain notebook gives the annotation and the
    sources back. *)
Lemma extract_plain (nb : NotebookNode) (hash : str) :
  plain_notebook nb ->
  Forall (fun c => islinebreak c = false) hash ->
  extract_hash_and_chunks (py_text nb hash) = (Some hash, sources nb).
Proof.
  intros [Hcells Hlast] Hh. unfold py_text.
  rewrite (extract_annotated _ _ Hh).
  assert (Hc : Forall (fun c => is_code c = true) (cells nb))
    by (eapply Forall_impl; [exact Hcells|]; intros c [H _]; exact H).
  rewrite (py_chunks_code _ Hc).
  assert (Hs : Forall (fun s => plain_source s = true) (sources nb)).
  { unfold sources. apply Forall_map.
    eapply Forall_impl; [exact Hcells|]. intros c [_ H]. exact H. }
  clear Hcells Hc. set (chunks := sources nb) in *. clearbody chunks.
  assert (Hne : chunks <> []).
  { destruct Hlast as [->|H]; [discriminate|]. intros ->. apply H. reflexivity. }
  rewrite join_splitlines.
  - f_equal. rewrite split_join_chunks; [|exact Hne|].
    + clear Hlast Hne. induction Hs as [|c l Hc Hl IH]; [reflexivity|].
      cbn [map]. rewrite IH. f_equal. apply plain_source_inv in Hc. tauto.
    + eapply Forall_impl; [exact Hs|]. intros c H.
      apply plain_source_inv in H. tauto.
  - apply only_lf_join. eapply Forall_impl; [exact Hs|]. intros c H.
    apply plain_source_inv in H. tauto.
  - destruct Hlast as [->|H]; [reflexivity|].
    rewrite join_last by exact H.
    assert (Hp : plain_source (List.last chunks []) = true).
    { clear Hne. induction Hs as [|c l Hc Hl IH]; [contradiction|].
      destruct l as [|c' l]; [exact Hc|]. apply IH. exact H. }
    apply plain_source_inv in Hp as [<- _]. apply strip_last. reflexivity.
Qed.

Lemma sources_from_plain (p : Path) (chunks : list str) :
  Forall (fun s => plain_source s = true) chunks ->
  sources (nb_data (from_code_cells p chunks)) = chunks.
Proof.
  unfold sources. cbn [from_code_cells nb_data cells].
  induction 1 as [|c l Hc Hl IH]; [reflexivity|].
  cbn [map]. rewrite IH. apply plain_source_inv in Hc.
  rewrite cell_of_plain_chunk by tauto. reflexivity.
Qed.

Lemma plain_notebook_sources (nb : NotebookNode) :
  plain_notebook nb -> Forall (fun s => plain_source s = true) (sources nb).
Proof.
  intros [H _]. unfold sources. apply Forall_map.
  eapply Forall_impl; [exact H|]. intros c [_ Hc]. exact Hc.
Qed.

Lemma compute_hash_sources (nb1 nb2 : NotebookNode) :
  sources nb1 = sources nb2 -> compute_hash nb1 = compute_hash nb2.
Proof. unfold compute_hash. intros ->. reflexivity. Qed.

Lemma only_lf_no_cr (s : str) : only_lf s -> Forall (fun c => c <> CR) s.
Proof.
  unfold only_lf. intros H. eapply Forall_impl; [exact H|].
  intros c Hc ->. specialize (Hc eq_refl). discriminate Hc.
Qed.

Lemma py_text_only_lf (nb : NotebookNode) (hash : str) :
  plain_notebook nb ->
  Forall (fun c => islinebreak c = false) hash ->
  only_lf (py_text nb hash).
Proof.
  intros Hnb Hh. unfold py_text. apply only_lf_app; [|apply only_lf_app].
  - repeat constructor; intros E; discriminate E.
  - apply only_lf_app.
    + eapply Forall_impl; [exact Hh|]. intros c -> E. discriminate E.
    + repeat constructor.
  - rewrite py_chunks_code.
    + apply only_lf_join. eapply Forall_impl;
        [exact (plain_notebook_sources _ Hnb)|].
      intros c H. apply plain_source_inv in H. tauto.
    + destruct Hnb as [H _]. eapply Forall_impl; [exact H|].
      intros c [Hc _]. exact Hc.
Qed.

(** Through a file, the flat form of a plain notebook is read as it was
    written, and the notebook read from it has the fingerprint of the
    notebook. *)
Lemma reread_plain (nb : NotebookNode) (hash : str) (p : Path) :
  plain_notebook nb ->
  Forall (fun c => islinebreak c = false) hash ->
  reread p nb hash = read_back p nb hash.
Proof.
  intros Hnb Hh. unfold reread, read_back.
  rewrite universal_newlines_id; [reflexivity|].
  apply only_lf_no_cr. apply py_text_only_lf; assumption.
Qed.

Lemma reread_plain_fingerprint (nb : NotebookNode) (p : Path) :
  plain_notebook nb ->
  compute_hash (reread p nb (compute_hash nb)) = compute_hash nb.
Proof.
  intros Hnb.
  rewrite reread_plain by (try assumption; apply md5_hexdigest_no_break).
  apply compute_hash_sources. unfold read_back.
  rewrite (extract_plain nb (compute_hash nb) Hnb (md5_hexdigest_no_break _)).
  cbn [snd].
  apply sources_from_plain. apply plain_notebook_sources. exact Hnb.
Qed.

End RoundTrip.

(** ** The converter and the hasher: the claims *)

Section Converter.

Import Py PyFacts ConverterFacts.

(** C1, as stated, fails: a code cell whose text ends with a line feed holds
    no marker and no bracket, and [strip] drops the line feed on the way
    back, so that the fingerprint changes. *)
Lemma roundtrip_changes_fingerprint :
  let d := Samples.notebook [Samples.code (Py.lit "x = 1" ++ [LF])] in
  let p := Samples.demo_ipynb in
  forallb free_of_tokens (cells d) = true
  /\ sources (read_back p d (compute_hash d)) = [Py.lit "x = 1"]
  /\ compute_hash (read_back p d (compute_hash d)) <> compute_hash d.
Proof.
  split; [reflexivity|]. split; [vm_compute; reflexivity|].
  vm_compute. discriminate.
Qed.

(** The other ways the round trip changes the sources: a markdown cell comes
    back with the two line feeds of its wrapping, an empty last cell is
    lost with the separator before it, a code cell in brackets comes back
    as markdown, a carriage return comes back as a line feed, a cell that
    ends with the marker makes a delimiter with the line feed after it, and
    a notebook without cells comes back with one. *)
Example roundtrip_markdown :
  let d := Samples.notebook [Samples.markdown (Py.lit "hi")] in
  cells (read_back (Samples.demo_ipynb) d (compute_hash d))
  = [Samples.markdown ([LF] ++ Py.lit "hi" ++ [LF])].
Proof. vm_compute. reflexivity. Qed.

Example roundtrip_empty_last_cell :
  let d := Samples.notebook [Samples.code (Py.lit "a"); Samples.code []] in
  cells (read_back (Samples.demo_ipynb) d (compute_hash d))
  = [Samples.code (Py.lit "a" ++ [LF] ++ Py.lit "# %%")].
Proof. vm_compute. reflexivity. Qed.

Example roundtrip_bracketed_code :
  let d := Samples.notebook [Samples.code (TRIPLE_QUOTE ++ Py.lit "doc" ++ TRIPLE_QUOTE)] in
  cells (read_back (Samples.demo_ipynb) d (compute_hash d))
  = [Samples.markdown (Py.lit "doc")].
Proof. vm_compute. reflexivity. Qed.

Example roundtrip_carriage_return :
  let d := Samples.notebook [Samples.code (Py.lit "a" ++ [CR] ++ Py.lit "b")] in
  cells (read_back Samples.demo_ipynb d (compute_hash d))
  = [Samples.code (Py.lit "a" ++ [LF] ++ Py.lit "b")].
Proof. vm_compute. reflexivity. Qed.

Example roundtrip_marker_at_end :
  let d := Samples.notebook [Samples.code (Py.lit "# %%"); Samples.code (Py.lit "b")] in
  Forall (fun c => contains (cell_source c) HEADER_COMMENT = false) (cells d)
  /\ cells (read_back Samples.demo_ipynb d (compute_hash d))
     = [Samples.code []; Samples.code []; Samples.code (Py.lit "b")].
Proof. split; [repeat constructor|vm_compute; reflexivity]. Qed.

Example roundtrip_no_cells :
  let d := Samples.notebook [] in
  cells (read_back (Samples.demo_ipynb) d (compute_hash d))
  = [Samples.code []].
Proof. vm_compute. reflexivity. Qed.

(** C1, amended: for a notebook of code cells with plain sources (no white
    space around the text, no line break but line feeds, no delimiter line
    once a line feed follows, not wrapped in the bracket) whose last cell is
    not empty unless it is the only one, and an annotation without line
    breaks, the flat form read back has the same sources, and so the same
    fingerprint. *)
Theorem roundtrip_plain_fingerprint (nb : NotebookNode) (hash : str) (p : Path) :
  plain_notebook nb ->
  Forall (fun c => islinebreak c = false) hash ->
  sources (read_back p nb hash) = sources nb
  /\ compute_hash (read_back p nb hash) = compute_hash nb.
Proof.
  intros Hnb Hh.
  assert (E : sources (read_back p nb hash) = sources nb).
  { unfold read_back. rewrite (extract_plain _ _ Hnb Hh). cbn [snd].
    apply sources_from_plain. apply plain_notebook_sources. exact Hnb. }
  split; [exact E|]. apply compute_hash_sources. exact E.
Qed.

Lemma roundtrip_plain_fingerprint_witness :
  let nb := Samples.two_cells in
  let p := Samples.demo_ipynb in
  plain_notebook nb
  /\ Forall (fun c => islinebreak c = false) (compute_hash nb)
  /\ sources (read_back p nb (compute_hash nb)) = sources nb
  /\ compute_hash (read_back p nb (compute_hash nb)) = compute_hash nb.
Proof.
  assert (H1 : plain_notebook Samples.two_cells).
  { split; [|right; discriminate].
    repeat constructor. }
  assert (H2 : Forall (fun c => islinebreak c = false)
                 (compute_hash Samples.two_cells))
    by apply md5_hexdigest_no_break.
  split; [exact H1|]. split; [exact H2|].
  apply (roundtrip_plain_fingerprint Samples.two_cells _ _ H1 H2).
Defined.

(** C2: the fingerprint is a function of the ordered sources alone: two
    notebooks with the same sources have the same fingerprint, whatever their
    outputs, counters, cell types and metadata, and a change of outputs and
    counters alone keeps it. *)
Theorem fingerprint_of_sources (nb1 nb2 : NotebookNode) :
  (sources nb1 = sources nb2 -> compute_hash nb1 = compute_hash nb2)
  /\ (Forall2 execution_only_change (cells nb1) (cells nb2) ->
      compute_hash nb1 = compute_hash nb2).
Proof.
  split; [apply compute_hash_sources|].
  intros H. apply compute_hash_sources. unfold sources.
  induction H as [|c c' l l' Hc Hl IH]; [reflexivity|].
  cbn [map]. rewrite IH. f_equal. destruct Hc; reflexivity.
Qed.

Lemma fingerprint_of_sources_witness :
  let nb1 := Samples.notebook
               [Samples.markdown (Py.lit "x = 1"); Samples.code (Py.lit "y")] in
  let nb2 := {| cells := [Samples.run_code (Py.lit "x = 1");
                          RawCell (Json.Dict [(Py.lit "k", Json.Null)]) (Py.lit "y")];
                metadata := Json.Null; nbformat := 4; nbformat_minor := 5 |} in
  let nb3 := Samples.notebook
               [Samples.markdown (Py.lit "x = 1"); Samples.run_code (Py.lit "y")] in
  (sources nb1 = sources nb2 /\ compute_hash nb1 = compute_hash nb2)
  /\ (Forall2 execution_only_change (cells nb1) (cells nb3)
      /\ compute_hash nb1 = compute_hash nb3).
Proof.
  split.
  - split; [reflexivity|].
    apply (proj1 (fingerprint_of_sources _ _)). reflexivity.
  - assert (H : Forall2 execution_only_change
                  [Samples.markdown (Py.lit "x = 1"); Samples.code (Py.lit "y")]
                  [Samples.markdown (Py.lit "x = 1"); Samples.run_code (Py.lit "y")]).
    { constructor; [apply change_none|].
      constructor; [apply change_code|constructor]. }
    split; [exact H|].
    apply (proj2 (fingerprint_of_sources _ _)). exact H.
Defined.

(** C9: a notebook built from chunks carries no execution state: its code
    cells have no outputs and no counter, and its cells have empty
    metadata. *)
Theorem from_code_cells_fresh (p : Path) (raw_cells : list str) :
  Forall fresh_cell (cells (nb_data (from_code_cells p raw_cells))).
Proof.
  cbn [from_code_cells nb_data cells]. apply Forall_map.
  apply Forall_forall. intros raw _. unfold cell_of_chunk.
  destruct (startswith raw TRIPLE_QUOTE && endswith raw TRIPLE_QUOTE);
    cbn [fresh_cell]; auto.
Qed.

End Converter.

(** ** Parsing a flat file *)

Section Parsing.

Import Py PyFacts ConverterFacts.

Lemma splitlines_single (p : str) :
  Forall (fun c => islinebreak c = false) p -> p <> [] -> splitlines p = [p].
Proof.
  induction 1 as [|c p Hc Hp IH]; [contradiction|]. intros _.
  cbn [splitlines]. rewrite Hc. destruct p as [|d p]; [reflexivity|].
  rewrite IH by discriminate. reflexivity.
Qed.

Lemma extract_chunks_not_nil (content : str) :
  snd (extract_hash_and_chunks content) <> [].
Proof.
  unfold extract_hash_and_chunks.
  destruct (startswith content HASH_PREFIX); cbn [snd]; intros E;
    apply map_eq_nil in E; exact (split_nonempty _ _ E).
Qed.

Lemma extract_annotation_only (hash : str) :
  Forall (fun c => islinebreak c = false) hash ->
  extract_hash_and_chunks (HASH_PREFIX ++ hash) = (Some hash, [[]]).
Proof.
  intros Hh. unfold extract_hash_and_chunks. rewrite startswith_app.
  rewrite splitlines_single.
  - cbn [hd tl]. rewrite slice_from_app. reflexivity.
  - apply Forall_app. split; [repeat constructor|exact Hh].
  - discriminate.
Qed.

(** C10: parsing never yields zero cells: every flat text has at least one
    chunk and gives a notebook with at least one cell; the empty text, and a
    text that is the annotation line alone, with or without its line feed,
    give one code cell with the empty source. *)
Theorem parsing_yields_a_cell (content hash : str) (p : Path) :
  snd (extract_hash_and_chunks content) <> []
  /\ cells (nb_data (from_code_cells p (snd (extract_hash_and_chunks content)))) <> []
  /\ cells (nb_data (from_code_cells p (snd (extract_hash_and_chunks []))))
     = [CodeCell (Json.Dict []) [] [] None]
  /\ (Forall (fun c => islinebreak c = false) hash ->
      cells (nb_data (from_code_cells p
               (snd (extract_hash_and_chunks (HASH_PREFIX ++ hash)))))
      = [CodeCell (Json.Dict []) [] [] None]
      /\ cells (nb_data (from_code_cells p
                  (snd (extract_hash_and_chunks (HASH_PREFIX ++ hash ++ [LF])))))
         = [CodeCell (Json.Dict []) [] [] None]).
Proof.
  split; [apply extract_chunks_not_nil|]. split.
  - cbn [from_code_cells nb_data cells]. intros E. apply map_eq_nil in E.
    exact (extract_chunks_not_nil _ E).
  - split; [reflexivity|]. intros Hh. split.
    + rewrite (extract_annotation_only _ Hh). reflexivity.
    + replace (HASH_PREFIX ++ hash ++ [LF])
        with (HASH_PREFIX ++ (hash ++ [LF]) ++ []) by (rewrite app_nil_r; reflexivity).
      rewrite (extract_annotated _ _ Hh). reflexivity.
Qed.

Lemma parsing_yields_a_cell_witness :
  let hash := Py.lit "0123456789abcdef0123456789abcdef" in
  let p := Samples.demo_ipynb in
  Forall (fun c => islinebreak c = false) hash
  /\ cells (nb_data (from_code_cells p
              (snd (extract_hash_and_chunks (HASH_PREFIX ++ hash)))))
     = [CodeCell (Json.Dict []) [] [] None]
  /\ cells (nb_data (from_code_cells p
              (snd (extract_hash_and_chunks (HASH_PREFIX ++ hash ++ [LF])))))
     = [CodeCell (Json.Dict []) [] [] None].
Proof.
  assert (H : Forall (fun c => islinebreak c = false)
                (Py.lit "0123456789abcdef0123456789abcdef"))
    by (repeat constructor).
  split; [exact H|].
  exact (proj2 (proj2 (proj2 (parsing_yields_a_cell []
           (Py.lit "0123456789abcdef0123456789abcdef")
           (Samples.demo_ipynb)))) H).
Defined.

End Parsing.

(** ** The reconciliation engine: the claims *)

Section Engine.

Import Py PyFacts ConverterFacts.

Variables (PY_DIR NB_DIR stem : str) (ep : Executor) (w : World).

Let py_path := py_path_of PY_DIR stem.
Let nb_path := nb_path_of NB_DIR stem.

Lemma py_read_exists (w0 : World) (p : Path) (content : str) :
  py_read w0 p = Some content -> is_Some (py_files w0 !! p).
Proof.
  unfold py_read. destruct (py_files w0 !! p); [eauto|discriminate].
Qed.

Lemma py_read_written (w0 : World) (p : Path) (raw : str) :
  py_files w0 !! p = Some raw ->
  py_read w0 p = Some (universal_newlines raw).
Proof. unfold py_read. intros ->. reflexivity. Qed.

(** Both files are there: the pair goes to the decision. *)
Lemma process_both (content : str) (nb : NotebookNode) :
  py_read w py_path = Some content ->
  nb_files w !! nb_path = Some nb ->
  process_file_pair stem PY_DIR NB_DIR ep w =
    decide_pair stem py_path nb_path
      (fst (extract_hash_and_chunks content))
      {| path := nb_path; nb_data := nb |}
      (from_code_cells nb_path (snd (extract_hash_and_chunks content)))
      ep w.
Proof.
  intros Hpy Hnb.
  unfold process_file_pair, load_python_file, load_notebook, read_text,
    py_exists, nb_exists, mbind, mret, IO_bind, IO_ret.
  fold py_path nb_path. rewrite Hnb.
  rewrite !bool_decide_eq_true_2 by eauto using py_read_exists.
  cbn [negb andb].
  rewrite Hpy. destruct (extract_hash_and_chunks content) as [ref_hash chunks].
  rewrite Hnb. reflexivity.
Qed.

(** Only the notebook is there. *)
Lemma process_nb_only (nb : NotebookNode) :
  py_files w !! py_path = None ->
  nb_files w !! nb_path = Some nb ->
  process_file_pair stem PY_DIR NB_DIR ep w =
    (Ok {| path := nb_path; nb_data := nb |},
     set_stdout (stdout w ++ [(nb_path, py_path)]) w).
Proof.
  intros Hpy Hnb.
  unfold process_file_pair, load_python_file, load_notebook, read_text,
    py_exists, nb_exists, print, mbind, mret, IO_bind, IO_ret.
  fold py_path nb_path. rewrite Hpy, Hnb.
  rewrite bool_decide_eq_false_2 by (intros [? ?]; discriminate).
  rewrite bool_decide_eq_true_2 by eauto. cbn [negb andb].
  rewrite Hnb. reflexivity.
Qed.

(** Only the flat file is there: its annotation is not looked at. *)
Lemma process_py_only (content : str) :
  py_read w py_path = Some content ->
  nb_files w !! nb_path = None ->
  process_file_pair stem PY_DIR NB_DIR ep w =
    execute (from_code_cells nb_path (snd (extract_hash_and_chunks content))) ep
      (set_stdout (stdout w ++ [(py_path, nb_path)]) w).
Proof.
  intros Hpy Hnb.
  unfold process_file_pair, load_python_file, load_notebook, read_text,
    py_exists, nb_exists, print, mbind, mret, IO_bind, IO_ret.
  fold py_path nb_path. rewrite Hnb.
  rewrite bool_decide_eq_true_2 by eauto using py_read_exists.
  rewrite bool_decide_eq_false_2 by (intros [? ?]; discriminate).
  cbn [negb andb].
  rewrite Hpy. destruct (extract_hash_and_chunks content) as [ref_hash chunks].
  reflexivity.
Qed.

(** The four rows of the decision once an annotation was read. *)
Lemma decide_same (pp np : Path) (ref : str) (nb nbp : NotebookFile) :
  ref = compute_hash (nb_data nb) ->
  compute_hash (nb_data nb) = compute_hash (nb_data nbp) ->
  decide_pair stem pp np (Some ref) nb nbp ep w = (Ok nb, w).
Proof.
  intros -> E. unfold decide_pair. rewrite <- E, !str_eqb_refl. reflexivity.
Qed.

Lemma decide_structured (pp np : Path) (ref : str) (nb nbp : NotebookFile) :
  ref = compute_hash (nb_data nbp) ->
  ref <> compute_hash (nb_data nb) ->
  decide_pair stem pp np (Some ref) nb nbp ep w = (Ok nb, w).
Proof.
  intros -> N. unfold decide_pair.
  rewrite (proj2 (str_eqb_neq _ _) N), str_eqb_refl. reflexivity.
Qed.

Lemma decide_flat (pp np : Path) (ref : str) (nb nbp : NotebookFile) :
  ref = compute_hash (nb_data nb) ->
  ref <> compute_hash (nb_data nbp) ->
  decide_pair stem pp np (Some ref) nb nbp ep w =
    let w' := set_kernel_log (kernel_log w ++ [nb_data nbp]) w in
    match ep (nb_data nbp) with
    | Some data =>
        (Ok {| path := path nbp; nb_data := data |},
         set_stdout (stdout w' ++ [(pp, np)]) w')
    | None => (Raise CellExecutionError, w')
    end.
Proof.
  intros -> N. unfold decide_pair.
  rewrite (proj2 (str_eqb_neq _ _) N), str_eqb_refl. cbn [andb negb].
  unfold execute, print, mbind, mret, IO_bind, IO_ret.
  destruct (ep (nb_data nbp)); reflexivity.
Qed.

Lemma decide_conflict (pp np : Path) (ref : str) (nb nbp : NotebookFile) :
  ref <> compute_hash (nb_data nb) ->
  ref <> compute_hash (nb_data nbp) ->
  decide_pair stem pp np (Some ref) nb nbp ep w =
    (Raise (SystemExit (Conflict stem pp true)), w).
Proof.
  intros N1 N2. unfold decide_pair.
  rewrite (proj2 (str_eqb_neq _ _) N1), (proj2 (str_eqb_neq _ _) N2).
  reflexivity.
Qed.

(** The loop body after [process_file_pair]. *)
Lemma main_step_ok (nb : NotebookFile) (w1 : World) :
  process_file_pair stem PY_DIR NB_DIR ep w = (Ok nb, w1) ->
  main_step PY_DIR NB_DIR ep stem w =
    (Ok tt,
     set_py_files
       (<[py_path := py_text (nb_data nb) (compute_hash (nb_data nb))]>
          (py_files w1))
       (set_nb_files (<[path nb := nb_data nb]> (nb_files w1)) w1)).
Proof.
  intros H. unfold main_step, mbind, IO_bind. rewrite H. reflexivity.
Qed.

Lemma main_step_raise (e : Exn) (w1 : World) :
  process_file_pair stem PY_DIR NB_DIR ep w = (Raise e, w1) ->
  main_step PY_DIR NB_DIR ep stem w = (Raise e, w1).
Proof.
  intros H. unfold main_step, mbind, IO_bind. rewrite H. reflexivity.
Qed.

(** An exception in the loop body ends the loop of [main]. *)
Lemma main_loop_raise (e : Exn) (w1 : World) (rest : list str) :
  main_step PY_DIR NB_DIR ep stem w = (Raise e, w1) ->
  main_loop PY_DIR NB_DIR ep (stem :: rest) w = (Raise e, w1).
Proof.
  intros H. cbn [main_loop]. unfold mbind, IO_bind. rewrite H. reflexivity.
Qed.

(** The annotation read from the text [write_to_py] writes with a digest. *)
Lemma py_text_annotation (nb : NotebookNode) :
  fst (extract_hash_and_chunks
         (universal_newlines (py_text nb (compute_hash nb))))
  = Some (compute_hash nb).
Proof.
  unfold py_text.
  replace (HASH_PREFIX ++ (compute_hash nb ++ [LF]) ++ join CHUNK_SEP (py_chunks nb))
    with ((HASH_PREFIX ++ compute_hash nb) ++ LF :: join CHUNK_SEP (py_chunks nb))
    by (rewrite <- !app_assoc; reflexivity).
  rewrite universal_newlines_line.
  - rewrite <- app_assoc.
    change (LF :: universal_newlines (join CHUNK_SEP (py_chunks nb)))
      with ([LF] ++ universal_newlines (join CHUNK_SEP (py_chunks nb))).
    rewrite (app_assoc (compute_hash nb)).
    rewrite extract_annotated; [reflexivity|].
    apply md5_hexdigest_no_break.
  - apply Forall_app. split; [repeat constructor|].
    apply md5_hexdigest_no_break.
Qed.

(** C3: when the annotation differs from the fingerprints of both sides,
    which differ from each other, reconciliation stops with the conflict
    exit and the disk is as it was. *)
Theorem conflict_persists_nothing (content ref : str) (nb : NotebookNode) :
  py_read w py_path = Some content ->
  nb_files w !! nb_path = Some nb ->
  fst (extract_hash_and_chunks content) = Some ref ->
  let nb_from_py :=
    from_code_cells nb_path (snd (extract_hash_and_chunks content)) in
  ref <> compute_hash nb ->
  ref <> compute_hash (nb_data nb_from_py) ->
  compute_hash nb <> compute_hash (nb_data nb_from_py) ->
  process_file_pair stem PY_DIR NB_DIR ep w
    = (Raise (SystemExit (Conflict stem py_path true)), w)
  /\ main_step PY_DIR NB_DIR ep stem w
    = (Raise (SystemExit (Conflict stem py_path true)), w).
Proof.
  intros Hpy Hnb Href nbp N1 N2 _.
  assert (E : process_file_pair stem PY_DIR NB_DIR ep w
              = (Raise (SystemExit (Conflict stem py_path true)), w)).
  { rewrite (process_both _ _ Hpy Hnb), Href.
    apply decide_conflict; assumption. }
  split; [exact E|]. apply main_step_raise. exact E.
Qed.

(** C4: when the annotation is the fingerprint of the notebook and not that
    of the flat file, the notebook built from the flat file goes to the
    kernel, and what the kernel gives back is returned; when the kernel
    fails nothing is returned. *)
Theorem flat_authoritative (content ref : str) (nb : NotebookNode) :
  py_read w py_path = Some content ->
  nb_files w !! nb_path = Some nb ->
  fst (extract_hash_and_chunks content) = Some ref ->
  let nb_from_py :=
    from_code_cells nb_path (snd (extract_hash_and_chunks content)) in
  ref = compute_hash nb ->
  ref <> compute_hash (nb_data nb_from_py) ->
  let w' := set_kernel_log (kernel_log w ++ [nb_data nb_from_py]) w in
  process_file_pair stem PY_DIR NB_DIR ep w =
    match ep (nb_data nb_from_py) with
    | Some data =>
        (Ok {| path := nb_path; nb_data := data |},
         set_stdout (stdout w ++ [(py_path, nb_path)]) w')
    | None => (Raise CellExecutionError, w')
    end.
Proof.
  intros Hpy Hnb Href nbp E N w'.
  rewrite (process_both _ _ Hpy Hnb), Href.
  rewrite decide_flat by assumption. reflexivity.
Qed.

(** C5: when the annotation is the fingerprint of the flat file and not that
    of the notebook, the loaded notebook is returned as it is; the kernel is
    not called and nothing else changes. *)
Theorem structured_authoritative (content ref : str) (nb : NotebookNode) :
  py_read w py_path = Some content ->
  nb_files w !! nb_path = Some nb ->
  fst (extract_hash_and_chunks content) = Some ref ->
  let nb_from_py :=
    from_code_cells nb_path (snd (extract_hash_and_chunks content)) in
  ref = compute_hash (nb_data nb_from_py) ->
  ref <> compute_hash nb ->
  process_file_pair stem PY_DIR NB_DIR ep w
    = (Ok {| path := nb_path; nb_data := nb |}, w).
Proof.
  intros Hpy Hnb Href nbp E N.
  rewrite (process_both _ _ Hpy Hnb), Href.
  apply decide_structured; assumption.
Qed.

(** C6, amended: when both files are there and the flat file has no
    annotation, reconciliation stops with the exit that asks to remove one
    of the two files, and the disk is as it was. *)
Theorem missing_annotation_fatal (content : str) (nb : NotebookNode) :
  py_read w py_path = Some content ->
  nb_files w !! nb_path = Some nb ->
  fst (extract_hash_and_chunks content) = None ->
  process_file_pair stem PY_DIR NB_DIR ep w
    = (Raise (SystemExit (UnrecognizedFlatFile py_path nb_path)), w)
  /\ main_step PY_DIR NB_DIR ep stem w
    = (Raise (SystemExit (UnrecognizedFlatFile py_path nb_path)), w).
Proof.
  intros Hpy Hnb Href.
  assert (E : process_file_pair stem PY_DIR NB_DIR ep w
              = (Raise (SystemExit (UnrecognizedFlatFile py_path nb_path)), w)).
  { rewrite (process_both _ _ Hpy Hnb), Href. reflexivity. }
  split; [exact E|]. apply main_step_raise. exact E.
Qed.

(** C7: when only the notebook is there, it is returned as it is and the
    kernel is not called; the loop body then writes a flat file whose
    annotation is the fingerprint of the notebook. *)
Theorem structured_only_creates_flat (nb : NotebookNode) :
  py_files w !! py_path = None ->
  nb_files w !! nb_path = Some nb ->
  process_file_pair stem PY_DIR NB_DIR ep w
    = (Ok {| path := nb_path; nb_data := nb |},
       set_stdout (stdout w ++ [(nb_path, py_path)]) w)
  /\ exists w' flat,
      main_step PY_DIR NB_DIR ep stem w = (Ok tt, w')
      /\ kernel_log w' = kernel_log w
      /\ nb_files w' !! nb_path = Some nb
      /\ py_read w' py_path = Some flat
      /\ fst (extract_hash_and_chunks flat) = Some (compute_hash nb).
Proof.
  intros Hpy Hnb. pose proof (process_nb_only _ Hpy Hnb) as E.
  split; [exact E|]. eexists _, _. split; [apply (main_step_ok _ _ E)|].
  cbn [set_py_files set_nb_files set_stdout kernel_log nb_files py_files
       path nb_data].
  split; [reflexivity|]. split; [apply lookup_insert_eq|].
  split; [apply py_read_written; apply lookup_insert_eq|].
  apply py_text_annotation.
Qed.

End Engine.

Section Convergence.

Import Py PyFacts ConverterFacts.

Variables (PY_DIR NB_DIR stem : str) (ep : Executor).

Let py_path := py_path_of PY_DIR stem.
Let nb_path := nb_path_of NB_DIR stem.

(** The loop body on a pair where nothing changed: the notebook and its flat
    form are written, and nothing else happens. *)
Lemma main_step_same (w : World) (content : str) (nb : NotebookNode) :
  py_read w py_path = Some content ->
  nb_files w !! nb_path = Some nb ->
  fst (extract_hash_and_chunks content) = Some (compute_hash nb) ->
  compute_hash
    (nb_data (from_code_cells nb_path (snd (extract_hash_and_chunks content))))
    = compute_hash nb ->
  main_step PY_DIR NB_DIR ep stem w =
    (Ok tt,
     set_py_files (<[py_path := py_text nb (compute_hash nb)]> (py_files w))
       (set_nb_files (<[nb_path := nb]> (nb_files w)) w)).
Proof.
  intros Hpy Hnb Href Hflat.
  apply (main_step_ok PY_DIR NB_DIR stem ep w {| path := nb_path; nb_data := nb |}).
  rewrite (process_both _ _ _ _ _ _ _ Hpy Hnb), Href.
  apply decide_same; [reflexivity|]. symmetry. exact Hflat.
Qed.

(** Convergence where the flat form is stable: when the annotation and the
    fingerprints of both sides are equal, and the flat form written from the
    notebook is read back from its file with the fingerprint of the
    notebook, the first run writes the notebook and its flat form without
    calling the kernel, and the second run leaves the whole disk as the
    first run left it. *)
Theorem noop_convergence (w : World) (content : str) (nb : NotebookNode) :
  py_read w py_path = Some content ->
  nb_files w !! nb_path = Some nb ->
  fst (extract_hash_and_chunks content) = Some (compute_hash nb) ->
  compute_hash
    (nb_data (from_code_cells nb_path (snd (extract_hash_and_chunks content))))
    = compute_hash nb ->
  compute_hash (reread nb_path nb (compute_hash nb)) = compute_hash nb ->
  exists w1,
    main_step PY_DIR NB_DIR ep stem w = (Ok tt, w1)
    /\ main_step PY_DIR NB_DIR ep stem w1 = (Ok tt, w1)
    /\ nb_files w1 !! nb_path = Some nb
    /\ py_files w1 !! py_path = Some (py_text nb (compute_hash nb))
    /\ kernel_log w1 = kernel_log w.
Proof.
  intros Hpy Hnb Href Hflat Hback.
  eexists. split; [apply (main_step_same _ _ _ Hpy Hnb Href Hflat)|].
  set (flat := py_text nb (compute_hash nb)).
  set (w1 := set_py_files _ _).
  assert (Hpy1 : py_files w1 !! py_path = Some flat) by apply lookup_insert_eq.
  assert (Hnb1 : nb_files w1 !! nb_path = Some nb) by apply lookup_insert_eq.
  split; [|split; [exact Hnb1|split; [exact Hpy1|reflexivity]]].
  rewrite (main_step_same w1 _ nb (py_read_written _ _ _ Hpy1) Hnb1).
  - fold flat. unfold w1, set_py_files, set_nb_files.
    cbn [py_files nb_files stdout kernel_log].
    rewrite !insert_insert_eq. reflexivity.
  - apply py_text_annotation.
  - exact Hback.
Qed.

(** X19: for a pair in step whose notebook has plain code cells only, the
    cells of the amended round trip, two steps in a row end well and the
    second leaves the whole disk as the first left it. *)
Corollary noop_convergence_plain (w : World) (content : str) (nb : NotebookNode) :
  py_read w py_path = Some content ->
  nb_files w !! nb_path = Some nb ->
  fst (extract_hash_and_chunks content) = Some (compute_hash nb) ->
  compute_hash
    (nb_data (from_code_cells nb_path (snd (extract_hash_and_chunks content))))
    = compute_hash nb ->
  plain_notebook nb ->
  exists w1,
    main_step PY_DIR NB_DIR ep stem w = (Ok tt, w1)
    /\ main_step PY_DIR NB_DIR ep stem w1 = (Ok tt, w1).
Proof.
  intros Hpy Hnb Href Hflat Hplain.
  destruct (noop_convergence w content nb Hpy Hnb Href Hflat
              (reread_plain_fingerprint nb nb_path Hplain))
    as [w1 [H1 [H2 _]]].
  exists w1. split; assumption.
Qed.

End Convergence.

(** ** The engine on sample disks *)

Section EngineSamples.

Import Py Samples.

Lemma conflict_persists_nothing_witness :
  process_file_pair demo scripts notebooks counting_kernel conflict_disk
    = (Raise (SystemExit (Conflict demo demo_py true)), conflict_disk)
  /\ main_step scripts notebooks counting_kernel demo conflict_disk
    = (Raise (SystemExit (Conflict demo demo_py true)), conflict_disk).
Proof.
  apply (conflict_persists_nothing scripts notebooks demo counting_kernel
           conflict_disk
           (py_text (notebook [code (Py.lit "b = 2")])
              (compute_hash (notebook [code (Py.lit "c = 3")])))
           (compute_hash (notebook [code (Py.lit "c = 3")]))
           (notebook [run_code (Py.lit "a = 1")])).
  - vm_compute. reflexivity.
  - vm_compute. reflexivity.
  - vm_compute. reflexivity.
  - vm_compute. discriminate.
  - vm_compute. discriminate.
  - vm_compute. discriminate.
Defined.

Lemma flat_authoritative_witness :
  process_file_pair demo scripts notebooks counting_kernel flat_edited_disk
  = (Ok {| path := demo_ipynb;
           nb_data := notebook [CodeCell (Json.Dict []) (Py.lit "b = 2") [] (Some 1%Z)] |},
     set_stdout [(demo_py, demo_ipynb)]
       (set_kernel_log [notebook [code (Py.lit "b = 2")]] flat_edited_disk)).
Proof.
  apply (flat_authoritative scripts notebooks demo counting_kernel
           flat_edited_disk
           (py_text (notebook [code (Py.lit "b = 2")])
              (compute_hash (notebook [code (Py.lit "a = 1")])))
           (compute_hash (notebook [code (Py.lit "a = 1")]))
           (notebook [run_code (Py.lit "a = 1")])).
  - vm_compute. reflexivity.
  - vm_compute. reflexivity.
  - vm_compute. reflexivity.
  - vm_compute. reflexivity.
  - vm_compute. discriminate.
Defined.

Lemma structured_authoritative_witness :
  process_file_pair demo scripts notebooks failing_kernel notebook_edited_disk
  = (Ok {| path := demo_ipynb; nb_data := notebook [run_code (Py.lit "a = 1")] |},
     notebook_edited_disk).
Proof.
  apply (structured_authoritative scripts notebooks demo failing_kernel
           notebook_edited_disk
           (py_text (notebook [code (Py.lit "b = 2")])
              (compute_hash (notebook [code (Py.lit "b = 2")])))
           (compute_hash (notebook [code (Py.lit "b = 2")]))
           (notebook [run_code (Py.lit "a = 1")])).
  - vm_compute. reflexivity.
  - vm_compute. reflexivity.
  - vm_compute. reflexivity.
  - vm_compute. reflexivity.
  - vm_compute. discriminate.
Defined.

(** C6, as stated, fails: a flat file without annotation that has no
    notebook next to it is converted, run and written back. *)
Lemma missing_annotation_alone_not_fatal :
  let r := main_step scripts notebooks counting_kernel demo unannotated_alone_disk in
  py_read unannotated_alone_disk demo_py = Some (Py.lit "a = 1")
  /\ nb_files unannotated_alone_disk !! demo_ipynb = None
  /\ fst (extract_hash_and_chunks (Py.lit "a = 1")) = None
  /\ fst r = Ok tt
  /\ kernel_log (snd r) = [notebook [code (Py.lit "a = 1")]]
  /\ nb_files (snd r) !! demo_ipynb
     = Some (notebook [CodeCell (Json.Dict []) (Py.lit "a = 1") [] (Some 1%Z)])
  /\ py_files (snd r) !! demo_py
     = Some (HASH_PREFIX ++ compute_hash (notebook [code (Py.lit "a = 1")])
             ++ [LF] ++ Py.lit "a = 1").
Proof. vm_compute. repeat split; reflexivity. Qed.

Lemma missing_annotation_fatal_witness :
  process_file_pair demo scripts notebooks counting_kernel unannotated_pair_disk
    = (Raise (SystemExit (UnrecognizedFlatFile demo_py demo_ipynb)),
       unannotated_pair_disk)
  /\ main_step scripts notebooks counting_kernel demo unannotated_pair_disk
    = (Raise (SystemExit (UnrecognizedFlatFile demo_py demo_ipynb)),
       unannotated_pair_disk).
Proof.
  apply (missing_annotation_fatal scripts notebooks demo counting_kernel
           unannotated_pair_disk (Py.lit "a = 1")
           (notebook [run_code (Py.lit "a = 1")])).
  - vm_compute. reflexivity.
  - vm_compute. reflexivity.
  - vm_compute. reflexivity.
Defined.

Lemma structured_only_creates_flat_witness :
  process_file_pair demo scripts notebooks failing_kernel notebook_alone_disk
    = (Ok {| path := demo_ipynb; nb_data := two_cells |},
       set_stdout (stdout notebook_alone_disk ++ [(demo_ipynb, demo_py)])
         notebook_alone_disk)
  /\ exists w' flat,
      main_step scripts notebooks failing_kernel demo notebook_alone_disk
        = (Ok tt, w')
      /\ kernel_log w' = kernel_log notebook_alone_disk
      /\ nb_files w' !! demo_ipynb = Some two_cells
      /\ py_read w' demo_py = Some flat
      /\ fst (extract_hash_and_chunks flat) = Some (compute_hash two_cells).
Proof.
  apply (structured_only_creates_flat scripts notebooks demo failing_kernel
           notebook_alone_disk two_cells).
  - vm_compute. reflexivity.
  - vm_compute. reflexivity.
Defined.

(** C8 fails on the code: the pair [titled_disk] is in step, the first run
    writes the markdown cell wrapped in the bracket and a line feed on each
    side, of which [from_code_cells] removes the bracket only; the second run
    so takes the flat file for edited, calls the kernel and writes other
    files. *)
Lemma noop_not_convergent :
  let r1 := main_step scripts notebooks counting_kernel demo titled_disk in
  let r2 := main_step scripts notebooks counting_kernel demo (snd r1) in
  (py_read titled_disk demo_py = Some titled_flat
   /\ nb_files titled_disk !! demo_ipynb = Some titled
   /\ fst (extract_hash_and_chunks titled_flat) = Some (compute_hash titled)
   /\ compute_hash
        (nb_data (from_code_cells demo_ipynb (snd (extract_hash_and_chunks titled_flat))))
      = compute_hash titled)
  /\ fst r1 = Ok tt /\ fst r2 = Ok tt
  /\ kernel_log (snd r1) = []
  /\ nb_files (snd r1) !! demo_ipynb = Some titled
  /\ kernel_log (snd r2) <> []
  /\ nb_files (snd r2) !! demo_ipynb <> nb_files (snd r1) !! demo_ipynb
  /\ py_files (snd r2) !! demo_py <> py_files (snd r1) !! demo_py.
Proof.
  vm_compute. repeat split; try reflexivity; discriminate.
Qed.

Lemma noop_convergence_in_step :
  exists w1,
    main_step scripts notebooks failing_kernel demo in_step_disk = (Ok tt, w1)
    /\ main_step scripts notebooks failing_kernel demo w1 = (Ok tt, w1)
    /\ nb_files w1 !! demo_ipynb = Some two_cells
    /\ py_files w1 !! demo_py = Some (py_text two_cells (compute_hash two_cells))
    /\ kernel_log w1 = kernel_log in_step_disk.
Proof.
  apply (noop_convergence scripts notebooks demo failing_kernel in_step_disk
           (py_text two_cells (compute_hash two_cells)) two_cells).
  - vm_compute. reflexivity.
  - vm_compute. reflexivity.
  - vm_compute. reflexivity.
  - vm_compute. reflexivity.
  - vm_compute. reflexivity.
Defined.

End EngineSamples.

(** ** The engine on every disk *)

Section EveryDisk.

Import Py PyFacts ConverterFacts.

Variables (PY_DIR NB_DIR stem : str) (ep : Executor).

Let py_path := py_path_of PY_DIR stem.
Let nb_path := nb_path_of NB_DIR stem.

Lemma py_read_None (w : World) (p : Path) :
  py_read w p = None <-> py_files w !! p = None.
Proof.
  unfold py_read. destruct (py_files w !! p); split; intros H;
    try discriminate H; reflexivity.
Qed.

Lemma process_neither (w : World) :
  py_files w !! py_path = None ->
  nb_files w !! nb_path = None ->
  process_file_pair stem PY_DIR NB_DIR ep w = (Raise AssertionError, w).
Proof.
  intros Hpy Hnb.
  unfold process_file_pair, py_exists, nb_exists, raise, mbind, IO_bind.
  fold py_path nb_path. rewrite Hpy, Hnb.
  rewrite !bool_decide_eq_false_2 by (intros [? ?]; discriminate).
  reflexivity.
Qed.

(** [process_file_pair] by the files that are there. *)
Lemma process_file_pair_cases (w : World) :
  process_file_pair stem PY_DIR NB_DIR ep w =
    match py_read w py_path, nb_files w !! nb_path with
    | Some content, Some nb =>
        decide_pair stem py_path nb_path
          (fst (extract_hash_and_chunks content))
          {| path := nb_path; nb_data := nb |}
          (from_code_cells nb_path (snd (extract_hash_and_chunks content)))
          ep w
    | Some content, None =>
        execute (from_code_cells nb_path (snd (extract_hash_and_chunks content)))
          ep (set_stdout (stdout w ++ [(py_path, nb_path)]) w)
    | None, Some nb =>
        (Ok {| path := nb_path; nb_data := nb |},
         set_stdout (stdout w ++ [(nb_path, py_path)]) w)
    | None, None => (Raise AssertionError, w)
    end.
Proof.
  destruct (py_read w py_path) as [content|] eqn:Hpy;
    destruct (nb_files w !! nb_path) as [nb|] eqn:Hnb.
  - apply process_both; assumption.
  - apply process_py_only; assumption.
  - apply process_nb_only; [apply py_read_None|]; assumption.
  - apply process_neither; [apply py_read_None|]; assumption.
Qed.

Lemma decide_pair_result (pp np : Path) (ref_hash : option str)
    (nb nbp : NotebookFile) (w w' : World) (r : Result NotebookFile) :
  decide_pair stem pp np ref_hash nb nbp ep w = (r, w') ->
  py_files w' = py_files w /\ nb_files w' = nb_files w
  /\ forall nbf, r = Ok nbf -> path nbf = path nb \/ path nbf = path nbp.
Proof.
  unfold decide_pair, execute, print, raise, mbind, mret, IO_bind, IO_ret.
  destruct ref_hash as [ref|].
  - repeat match goal with
           | |- context [if ?b then _ else _] => destruct b
           end;
      try destruct (ep (nb_data nbp));
      intros H; injection H as <- <-; repeat split; try reflexivity;
      intros nbf E; try discriminate E; injection E as <-; auto.
  - intros H. injection H as <- <-. repeat split. intros nbf E. discriminate E.
Qed.

(** What [process_file_pair] leaves and returns: the files are as they were,
    and a notebook it returns has the path of the notebook of the stem. *)
Lemma process_file_pair_result (w w' : World) (r : Result NotebookFile) :
  process_file_pair stem PY_DIR NB_DIR ep w = (r, w') ->
  py_files w' = py_files w /\ nb_files w' = nb_files w
  /\ forall nbf, r = Ok nbf -> path nbf = nb_path.
Proof.
  rewrite process_file_pair_cases.
  destruct (py_read w py_path) as [content|];
    destruct (nb_files w !! nb_path) as [nb|].
  - intros H. apply decide_pair_result in H as (H1 & H2 & H3).
    repeat split; try assumption. intros nbf E.
    destruct (H3 nbf E) as [->| ->]; reflexivity.
  - unfold execute.
    destruct (ep _); intros H; injection H as <- <-; repeat split;
      intros nbf E; try discriminate E; injection E as <-; reflexivity.
  - intros H. injection H as <- <-. repeat split.
    intros nbf E. injection E as <-. reflexivity.
  - intros H. injection H as <- <-. repeat split.
    intros nbf E. discriminate E.
Qed.

End EveryDisk.

(** ** One step of the loop of [main] *)

Section Steps.

Import Py PyFacts ConverterFacts.

Variables (PY_DIR NB_DIR stem : str) (ep : Executor).

Let py_path := py_path_of PY_DIR stem.
Let nb_path := nb_path_of NB_DIR stem.

(** A step that ends well has written the notebook [process_file_pair]
    returned and its flat form, on the files as they were. *)
Lemma main_step_inv (w w' : World) :
  main_step PY_DIR NB_DIR ep stem w = (Ok tt, w') ->
  exists nb w1,
    process_file_pair stem PY_DIR NB_DIR ep w
      = (Ok {| path := nb_path; nb_data := nb |}, w1)
    /\ py_files w1 = py_files w /\ nb_files w1 = nb_files w
    /\ w' = set_py_files
              (<[py_path := py_text nb (compute_hash nb)]> (py_files w1))
              (set_nb_files (<[nb_path := nb]> (nb_files w1)) w1).
Proof.
  intros H.
  destruct (process_file_pair stem PY_DIR NB_DIR ep w) as [[nbf|e] w1] eqn:E.
  - rewrite (main_step_ok _ _ _ _ _ _ _ E) in H. injection H as <-.
    destruct (process_file_pair_result _ _ _ _ _ _ _ E) as (H1 & H2 & H3).
    specialize (H3 nbf eq_refl). destruct nbf as [p nb]. cbn [path] in H3.
    subst p. exists nb, w1. repeat split; assumption.
  - rewrite (main_step_raise _ _ _ _ _ _ _ E) in H. discriminate H.
Qed.


(** X2: a step that ends well writes the two files of its stem and no other
    file: the notebook, and the flat form of that notebook, whose annotation
    read back from the file is the fingerprint of the notebook. *)
Theorem successful_step_writes_pair (w w' : World) :
  main_step PY_DIR NB_DIR ep stem w = (Ok tt, w') ->
  exists nb flat,
    nb_files w' = <[nb_path := nb]> (nb_files w)
    /\ py_files w' = <[py_path := py_text nb (compute_hash nb)]> (py_files w)
    /\ py_read w' py_path = Some flat
    /\ fst (extract_hash_and_chunks flat) = Some (compute_hash nb).
Proof.
  intros H. apply main_step_inv in H as (nb & w1 & _ & H1 & H2 & ->).
  exists nb, (universal_newlines (py_text nb (compute_hash nb))).
  cbn [set_py_files set_nb_files py_files nb_files]. rewrite H1, H2.
  repeat split.
  - apply py_read_written. cbn [py_files]. apply lookup_insert_eq.
  - apply py_text_annotation.
Qed.

(** X3: the step after a step that ended well never stops on a conflict, a
    missing annotation or a missing file: it returns the notebook as it is
    when the flat form just written reads back with its fingerprint, and
    hands the notebook read from the flat form to the kernel otherwise. *)
Theorem step_after_step (w w1 : World) :
  main_step PY_DIR NB_DIR ep stem w = (Ok tt, w1) ->
  exists nb,
    nb_files w1 !! nb_path = Some nb
    /\ let back := reread nb_path nb (compute_hash nb) in
       process_file_pair stem PY_DIR NB_DIR ep w1 =
         if str_eqb (compute_hash nb) (compute_hash back) then
           (Ok {| path := nb_path; nb_data := nb |}, w1)
         else
           let w2 := set_kernel_log (kernel_log w1 ++ [back]) w1 in
           match ep back with
           | Some data =>
               (Ok {| path := nb_path; nb_data := data |},
                set_stdout (stdout w2 ++ [(py_path, nb_path)]) w2)
           | None => (Raise CellExecutionError, w2)
           end.
Proof.
  intros H. apply main_step_inv in H as (nb & w0 & _ & _ & _ & ->).
  exists nb. set (w1 := set_py_files _ _).
  assert (Hnb : nb_files w1 !! nb_path = Some nb) by apply lookup_insert_eq.
  assert (Hpy : py_read w1 py_path
                = Some (universal_newlines (py_text nb (compute_hash nb))))
    by (apply py_read_written; apply lookup_insert_eq).
  split; [exact Hnb|]. intros back.
  rewrite (process_both _ _ _ _ _ _ _ Hpy Hnb), py_text_annotation.
  fold (reread nb_path nb (compute_hash nb)). fold back.
  destruct (str_eqb (compute_hash nb) (compute_hash back)) eqn:E.
  - apply str_eqb_eq in E. apply decide_same; [reflexivity|exact E].
  - apply str_eqb_neq in E. rewrite decide_flat; [reflexivity|reflexivity|exact E].
Qed.

(** X4: when only the flat file is there, its annotation is not looked at:
    the notebook built from its chunks is announced and handed to the
    kernel; what the kernel gives back is written with its flat form, and
    when the kernel fails no file is written. *)
Theorem flat_only_step (w : World) (content : str) :
  py_read w py_path = Some content ->
  nb_files w !! nb_path = None ->
  let nb_from_py :=
    nb_data (from_code_cells nb_path (snd (extract_hash_and_chunks content))) in
  let w1 := set_kernel_log (kernel_log w ++ [nb_from_py])
              (set_stdout (stdout w ++ [(py_path, nb_path)]) w) in
  main_step PY_DIR NB_DIR ep stem w =
    match ep nb_from_py with
    | Some data =>
        (Ok tt,
         set_py_files
           (<[py_path := py_text data (compute_hash data)]> (py_files w))
           (set_nb_files (<[nb_path := data]> (nb_files w)) w1))
    | None => (Raise CellExecutionError, w1)
    end.
Proof.
  intros Hpy Hnb nbp w1.
  pose proof (process_py_only PY_DIR NB_DIR stem ep w content Hpy Hnb) as E.
  unfold execute in E. cbn [nb_data from_code_cells path] in E.
  fold nb_path in E. unfold nbp, w1.
  cbn [nb_data from_code_cells].
  destruct (ep _) as [data|].
  - rewrite (main_step_ok _ _ _ _ _ _ _ E). reflexivity.
  - rewrite (main_step_raise _ _ _ _ _ _ _ E). reflexivity.
Qed.

(** X5: a stem neither of whose files is there fails the assertion of
    [process_file_pair], and nothing changes. *)
Theorem missing_pair_asserts (w : World) :
  py_files w !! py_path = None ->
  nb_files w !! nb_path = None ->
  main_step PY_DIR NB_DIR ep stem w = (Raise AssertionError, w).
Proof.
  intros Hpy Hnb. apply main_step_raise.
  apply process_neither; assumption.
Qed.

(** X6: when the annotation and the fingerprints of both sides are equal,
    the loaded notebook is returned with its outputs; the kernel is not
    called and nothing is printed. *)
Theorem unchanged_pair_kept (w : World) (content : str) (nb : NotebookNode) :
  py_read w py_path = Some content ->
  nb_files w !! nb_path = Some nb ->
  fst (extract_hash_and_chunks content) = Some (compute_hash nb) ->
  compute_hash
    (nb_data (from_code_cells nb_path (snd (extract_hash_and_chunks content))))
    = compute_hash nb ->
  process_file_pair stem PY_DIR NB_DIR ep w
    = (Ok {| path := nb_path; nb_data := nb |}, w).
Proof.
  intros Hpy Hnb Href Hflat.
  rewrite (process_both _ _ _ _ _ _ _ Hpy Hnb), Href.
  apply decide_same; [reflexivity|]. symmetry. exact Hflat.
Qed.

End Steps.

(** ** The loop of [main] *)

Section Loop.

Import Py PyFacts ConverterFacts.

Variables (PY_DIR NB_DIR : str) (ep : Executor).

Lemma py_path_of_inj (d x y : str) : py_path_of d x = py_path_of d y -> x = y.
Proof.
  unfold py_path_of. intros H. injection H as H.
  apply app_inv_tail in H. exact H.
Qed.

Lemma nb_path_of_inj (d x y : str) : nb_path_of d x = nb_path_of d y -> x = y.
Proof.
  unfold nb_path_of. intros H. injection H as H.
  apply app_inv_tail in H. exact H.
Qed.

Lemma decide_pair_fst (stem : str) (pp np : Path) (ref_hash : option str)
    (nb nbp : NotebookFile) (w w0 : World) :
  fst (decide_pair stem pp np ref_hash nb nbp ep w)
  = fst (decide_pair stem pp np ref_hash nb nbp ep w0).
Proof.
  unfold decide_pair, execute, print, raise, mbind, mret, IO_bind, IO_ret.
  destruct ref_hash as [ref|]; [|reflexivity].
  repeat match goal with
         | |- context [if ?b then _ else _] => destruct b
         end;
    try destruct (ep (nb_data nbp)); reflexivity.
Qed.

(** What [process_file_pair] returns depends on the two files of the stem
    alone. *)
Lemma process_local (stem : str) (w w0 : World) :
  py_files w !! py_path_of PY_DIR stem = py_files w0 !! py_path_of PY_DIR stem ->
  nb_files w !! nb_path_of NB_DIR stem = nb_files w0 !! nb_path_of NB_DIR stem ->
  fst (process_file_pair stem PY_DIR NB_DIR ep w)
  = fst (process_file_pair stem PY_DIR NB_DIR ep w0).
Proof.
  intros Hpy Hnb. rewrite !process_file_pair_cases. unfold py_read.
  rewrite Hpy, Hnb.
  destruct (py_files w0 !! py_path_of PY_DIR stem) as [raw|];
    destruct (nb_files w0 !! nb_path_of NB_DIR stem) as [nb|];
    cbn [fmap option_fmap option_map]; try reflexivity.
  - apply decide_pair_fst.
  - unfold execute. destruct (ep _); reflexivity.
Qed.

(** A step that ends well on one disk ends well on every disk with the same
    two files of the stem, and writes the same two files there. *)
Lemma main_step_transfer (stem : str) (w w0 w' : World) :
  py_files w !! py_path_of PY_DIR stem = py_files w0 !! py_path_of PY_DIR stem ->
  nb_files w !! nb_path_of NB_DIR stem = nb_files w0 !! nb_path_of NB_DIR stem ->
  main_step PY_DIR NB_DIR ep stem w = (Ok tt, w') ->
  exists nb w0',
    main_step PY_DIR NB_DIR ep stem w0 = (Ok tt, w0')
    /\ py_files w'
       = <[py_path_of PY_DIR stem := py_text nb (compute_hash nb)]> (py_files w)
    /\ nb_files w' = <[nb_path_of NB_DIR stem := nb]> (nb_files w)
    /\ py_files w0'
       = <[py_path_of PY_DIR stem := py_text nb (compute_hash nb)]> (py_files w0)
    /\ nb_files w0' = <[nb_path_of NB_DIR stem := nb]> (nb_files w0).
Proof.
  intros Hpy Hnb H.
  apply main_step_inv in H as (nb & w1 & E & H1 & H2 & ->).
  pose proof (process_local stem w w0 Hpy Hnb) as L. rewrite E in L.
  cbn [fst] in L.
  destruct (process_file_pair stem PY_DIR NB_DIR ep w0) as [r w1'] eqn:E0.
  cbn [fst] in L. subst r.
  destruct (process_file_pair_result _ _ _ _ _ _ _ E0) as (H1' & H2' & _).
  exists nb. eexists. split; [apply (main_step_ok _ _ _ _ _ _ _ E0)|].
  cbn [set_py_files set_nb_files py_files nb_files path nb_data].
  rewrite H1, H2, H1', H2'. repeat split.
Qed.

Lemma main_step_same_files (stem : str) (w w0 w' : World) :
  same_files w w0 ->
  main_step PY_DIR NB_DIR ep stem w = (Ok tt, w') ->
  exists w0',
    main_step PY_DIR NB_DIR ep stem w0 = (Ok tt, w0') /\ same_files w' w0'.
Proof.
  intros [S1 S2] H.
  destruct (main_step_transfer stem w w0 w') as (nb & w0' & E & A & B & C & D);
    [rewrite S1; reflexivity|rewrite S2; reflexivity|exact H|].
  exists w0'. split; [exact E|]. split; congruence.
Qed.

Lemma main_loop_cons (stem : str) (rest : list str) (w : World) :
  main_loop PY_DIR NB_DIR ep (stem :: rest) w =
    match main_step PY_DIR NB_DIR ep stem w with
    | (Ok _, w1) => main_loop PY_DIR NB_DIR ep rest w1
    | (Raise e, w1) => (Raise e, w1)
    end.
Proof. reflexivity. Qed.

Lemma main_loop_cons_ok (stem : str) (rest : list str) (w w' : World) :
  main_loop PY_DIR NB_DIR ep (stem :: rest) w = (Ok tt, w') ->
  exists w1,
    main_step PY_DIR NB_DIR ep stem w = (Ok tt, w1)
    /\ main_loop PY_DIR NB_DIR ep rest w1 = (Ok tt, w').
Proof.
  rewrite main_loop_cons.
  destruct (main_step PY_DIR NB_DIR ep stem w) as [[[]|e] w1]; [|discriminate].
  intros H. exists w1. split; [reflexivity|exact H].
Qed.

Lemma main_loop_same_files (stems : list str) (w w0 w' : World) :
  same_files w w0 ->
  main_loop PY_DIR NB_DIR ep stems w = (Ok tt, w') ->
  exists w0',
    main_loop PY_DIR NB_DIR ep stems w0 = (Ok tt, w0') /\ same_files w' w0'.
Proof.
  revert w w0. induction stems as [|stem rest IH]; intros w w0 S H.
  - cbn in H. injection H as <-. exists w0. split; [reflexivity|exact S].
  - apply main_loop_cons_ok in H as (w1 & H1 & H2).
    destruct (main_step_same_files _ _ _ _ S H1) as (w1' & E1 & S1).
    destruct (IH _ _ S1 H2) as (w0' & E2 & S2).
    exists w0'. split; [|exact S2]. rewrite main_loop_cons, E1. exact E2.
Qed.

(** Two steps for different stems, the one after the other, write the same
    files in either order. *)
Lemma main_step_swap (x y : str) (w w1 w2 w0 : World) :
  x <> y ->
  same_files w w0 ->
  main_step PY_DIR NB_DIR ep y w = (Ok tt, w1) ->
  main_step PY_DIR NB_DIR ep x w1 = (Ok tt, w2) ->
  exists wa wb,
    main_step PY_DIR NB_DIR ep x w0 = (Ok tt, wa)
    /\ main_step PY_DIR NB_DIR ep y wa = (Ok tt, wb)
    /\ same_files w2 wb.
Proof.
  intros Hxy [S1 S2] Hy Hx.
  assert (Npy : py_path_of PY_DIR y <> py_path_of PY_DIR x)
    by (intros E; apply py_path_of_inj in E; congruence).
  assert (Nnb : nb_path_of NB_DIR y <> nb_path_of NB_DIR x)
    by (intros E; apply nb_path_of_inj in E; congruence).
  destruct (main_step_transfer y w w0 w1) as (nby & wy & _ & A1 & B1 & _ & _);
    [rewrite S1; reflexivity|rewrite S2; reflexivity|exact Hy|].
  destruct (main_step_transfer x w1 w0 w2) as (nbx & wa & Ea & A2 & B2 & A3 & B3);
    [rewrite A1, S1; apply lookup_insert_ne; exact Npy
    |rewrite B1, S2; apply lookup_insert_ne; exact Nnb
    |exact Hx|].
  destruct (main_step_transfer y w wa w1) as (nby' & wb & Eb & A4 & B4 & A5 & B5);
    [rewrite A3, S1; symmetry; apply lookup_insert_ne; congruence
    |rewrite B3, S2; symmetry; apply lookup_insert_ne; congruence
    |exact Hy|].
  exists wa, wb. split; [exact Ea|]. split; [exact Eb|].
  assert (nby' = nby).
  { assert (L : nb_files w1 !! nb_path_of NB_DIR y = Some nby)
      by (rewrite B1; apply lookup_insert_eq).
    rewrite B4, lookup_insert_eq in L. congruence. }
  subst nby'. split.
  - rewrite A2, A1, A5, A3, S1. apply insert_insert_ne. congruence.
  - rewrite B2, B1, B5, B3, S2. apply insert_insert_ne. congruence.
Qed.



Lemma main_loop_permutation_gen (l l' : list str) :
  Permutation l l' ->
  forall w w0 w',
    same_files w w0 ->
    main_loop PY_DIR NB_DIR ep l w = (Ok tt, w') ->
    exists w0',
      main_loop PY_DIR NB_DIR ep l' w0 = (Ok tt, w0') /\ same_files w' w0'.
Proof.
  induction 1 as [|x l l' HP IH|x y l|l l' l'' HP1 IH1 HP2 IH2];
    intros w w0 w' S H.
  - apply (main_loop_same_files [] w w0 w' S H).
  - apply main_loop_cons_ok in H as (w1 & H1 & H2).
    destruct (main_step_same_files _ _ _ _ S H1) as (w1' & E1 & S1).
    destruct (IH _ _ _ S1 H2) as (w0' & E2 & S2).
    exists w0'. split; [|exact S2]. rewrite main_loop_cons, E1. exact E2.
  - apply main_loop_cons_ok in H as (w1 & H1 & H).
    apply main_loop_cons_ok in H as (w2 & H2 & H3).
    destruct (decide (x = y)) as [->|Hxy].
    + destruct (main_step_same_files _ _ _ _ S H1) as (w1' & E1 & S1).
      destruct (main_step_same_files _ _ _ _ S1 H2) as (w2' & E2 & S2).
      destruct (main_loop_same_files _ _ _ _ S2 H3) as (w0' & E3 & S3).
      exists w0'. split; [|exact S3].
      rewrite main_loop_cons, E1, main_loop_cons, E2. exact E3.
    + destruct (main_step_swap x y w w1 w2 w0 Hxy S H1 H2)
        as (wa & wb & Ea & Eb & Sb).
      destruct (main_loop_same_files _ _ _ _ Sb H3) as (w0' & E3 & S3).
      exists w0'. split; [|exact S3].
      rewrite main_loop_cons, Ea, main_loop_cons, Eb. exact E3.
  - destruct (IH1 _ _ _ S H) as (w1 & E1 & S1).
    destruct (IH2 w0 w0 w1 (conj eq_refl eq_refl) E1) as (w2 & E2 & S2).
    exists w2. split; [exact E2|]. destruct S1, S2. split; congruence.
Qed.

(** X8: when the run over the stems ends well, it ends well in every other
    order of the stems, and with the same files on the disk. *)
Theorem main_loop_permutation (l l' : list str) (w w' : World) :
  Permutation l l' ->
  main_loop PY_DIR NB_DIR ep l w = (Ok tt, w') ->
  exists w'',
    main_loop PY_DIR NB_DIR ep l' w = (Ok tt, w'') /\ same_files w' w''.
Proof.
  intros HP H.
  apply (main_loop_permutation_gen l l' HP w w w' (conj eq_refl eq_refl) H).
Qed.

End Loop.

(** ** What [extract_hash_and_chunks] returns *)

Section FlatText.

Import Py PyFacts ConverterFacts.

Lemma lstrip_idem (s : str) : lstrip (lstrip s) = lstrip s.
Proof.
  induction s as [|c s IH]; [reflexivity|]. cbn [lstrip].
  destruct (isspace c) eqn:E; [exact IH|]. cbn [lstrip]. rewrite E. reflexivity.
Qed.

Lemma lstrip_cons_inv (s : str) (c : char) (t : str) :
  lstrip s = c :: t -> isspace c = false.
Proof.
  induction s as [|d s IH]; [discriminate|]. cbn [lstrip].
  destruct (isspace d) eqn:E; [exact IH|]. intros H. injection H as <- _. exact E.
Qed.

Lemma rstrip_cons (c : char) (t : str) :
  isspace c = false -> rstrip (c :: t) = c :: rstrip t.
Proof.
  intros Hc. unfold rstrip. cbn [rev].
  destruct (lstrip (rev t)) as [|d l] eqn:E.
  - rewrite (lstrip_app_nil _ _ E). cbn [lstrip]. rewrite Hc. reflexivity.
  - rewrite lstrip_app by (rewrite E; discriminate).
    rewrite E, rev_app_distr. reflexivity.
Qed.

Lemma rstrip_idem (s : str) : rstrip (rstrip s) = rstrip s.
Proof. unfold rstrip. rewrite rev_involutive, lstrip_idem. reflexivity. Qed.

(** Stripping a stripped text changes nothing. *)
Lemma strip_idem (s : str) : strip (strip s) = strip s.
Proof.
  unfold strip. destruct (lstrip s) as [|c t] eqn:E; [reflexivity|].
  pose proof (lstrip_cons_inv _ _ _ E) as Hc.
  rewrite (rstrip_cons _ _ Hc). cbn [lstrip]. rewrite Hc.
  rewrite (rstrip_cons _ _ Hc), rstrip_idem. reflexivity.
Qed.

Lemma strip_first (s : str) (w : char) :
  isspace w = true -> startswith (strip s) [w] = false.
Proof.
  intros Hw. unfold strip. destruct (lstrip s) as [|c t] eqn:E; [reflexivity|].
  pose proof (lstrip_cons_inv _ _ _ E) as Hc.
  rewrite (rstrip_cons _ _ Hc). cbn [startswith].
  destruct (N.eqb_spec c w) as [->|_]; [congruence|reflexivity].
Qed.

(** X9: every chunk read from a flat text is stripped: stripping it again
    changes nothing, and it neither begins nor ends with a white space
    character. *)
Theorem chunks_are_stripped (content : str) :
  Forall (fun c =>
            strip c = c
            /\ forall w, isspace w = true ->
                 startswith c [w] = false /\ endswith c [w] = false)
    (snd (extract_hash_and_chunks content)).
Proof.
  unfold extract_hash_and_chunks.
  destruct (startswith content HASH_PREFIX); cbn [snd];
    apply Forall_map; apply Forall_forall; intros c _;
    (split; [apply strip_idem|]); intros w Hw;
    (split; [apply strip_first|apply strip_last]); exact Hw.
Qed.

Lemma splitlines_no_break_n (n : nat) (s : str) :
  length s <= n ->
  Forall (Forall (fun c => islinebreak c = false)) (splitlines s).
Proof.
  revert s. induction n as [|n IH]; intros s H.
  - destruct s; [constructor|cbn in H; lia].
  - destruct s as [|c s]; [constructor|]. cbn [length] in H.
    cbn [splitlines]. destruct (islinebreak c) eqn:E.
    + destruct s as [|d s]; [repeat constructor|]. cbn [length] in H.
      destruct ((c =? CR)%N && (d =? LF)%N);
        (constructor; [constructor|apply IH; cbn [length]; lia]).
    + assert (G : Forall (Forall (fun c => islinebreak c = false)) (splitlines s))
        by (apply IH; lia).
      destruct (splitlines s) as [|l ls]; [repeat constructor; exact E|].
      inversion G; subst. constructor; [constructor|]; assumption.
Qed.

(** No line of [splitlines] holds a line break. *)
Lemma splitlines_no_break (s : str) :
  Forall (Forall (fun c => islinebreak c = false)) (splitlines s).
Proof. apply (splitlines_no_break_n (length s)). lia. Qed.

(** The first line is the text up to its first line break. *)
Lemma splitlines_hd (s : str) :
  exists rest,
    s = hd [] (splitlines s) ++ rest
    /\ (rest = [] \/ exists c r, rest = c :: r /\ islinebreak c = true).
Proof.
  induction s as [|c s IH]; [exists []; split; [reflexivity|left; reflexivity]|].
  cbn [splitlines]. destruct (islinebreak c) eqn:E.
  - exists (c :: s). split; [|right; exists c, s; split; [reflexivity|exact E]].
    destruct s as [|d s]; [reflexivity|].
    destruct ((c =? CR)%N && (d =? LF)%N); reflexivity.
  - destruct IH as (rest & Hs & Hrest).
    destruct (splitlines s) as [|l ls] eqn:El.
    + apply splitlines_nil_inv in El. subst s. exists [].
      split; [reflexivity|left; reflexivity].
    + cbn [hd] in *. exists rest. split; [|exact Hrest].
      cbn [app]. f_equal. exact Hs.
Qed.

Lemma splitlines_hd_app (p x : str) :
  Forall (fun c => islinebreak c = false) p ->
  hd [] (splitlines (p ++ x)) = p ++ hd [] (splitlines x).
Proof.
  induction 1 as [|c p Hc Hp IH]; [reflexivity|].
  cbn [app splitlines]. rewrite Hc.
  destruct (splitlines (p ++ x)) as [|l ls] eqn:El.
  - apply splitlines_nil_inv in El. apply app_eq_nil in El as [-> ->].
    reflexivity.
  - cbn [hd] in *. rewrite IH. reflexivity.
Qed.

Lemma hash_prefix_no_break : Forall (fun c => islinebreak c = false) HASH_PREFIX.
Proof. repeat constructor. Qed.

(** X10: a flat text has an annotation exactly when it begins with the
    prefix; the annotation is then the rest of the first line: it holds no
    line break, and the text goes on after it with a line break or ends. *)
Theorem annotation_is_first_line (content : str) :
  (fst (extract_hash_and_chunks content) = None
   <-> startswith content HASH_PREFIX = false)
  /\ (startswith content HASH_PREFIX = true ->
      exists hash rest,
        fst (extract_hash_and_chunks content) = Some hash
        /\ content = HASH_PREFIX ++ hash ++ rest
        /\ Forall (fun c => islinebreak c = false) hash
        /\ (rest = [] \/ exists c r, rest = c :: r /\ islinebreak c = true)).
Proof.
  unfold extract_hash_and_chunks. split.
  - destruct (startswith content HASH_PREFIX); cbn [fst]; split;
      intros H; try discriminate H; reflexivity.
  - intros H. rewrite H. cbn [fst].
    pose proof (startswith_inv _ _ H) as E.
    remember (skipn (length HASH_PREFIX) content) as x eqn:Hx0.
    clear Hx0 H. subst content.
    rewrite (splitlines_hd_app _ _ hash_prefix_no_break).
    rewrite slice_from_app.
    destruct (splitlines_hd x) as (rest & Hx & Hrest).
    exists (hd [] (splitlines x)), rest. split; [reflexivity|].
    split; [rewrite <- Hx; reflexivity|]. split; [|exact Hrest].
    pose proof (splitlines_no_break x) as G.
    destruct (splitlines x) as [|l ls]; [constructor|].
    inversion G; assumption.
Qed.

Lemma annotation_is_first_line_witness :
  let content := HASH_PREFIX ++ Py.lit "abc" ++ [CR; LF] ++ Py.lit "x = 1" in
  exists hash rest,
    fst (extract_hash_and_chunks content) = Some hash
    /\ content = HASH_PREFIX ++ hash ++ rest
    /\ Forall (fun c => islinebreak c = false) hash
    /\ (rest = [] \/ exists c r, rest = c :: r /\ islinebreak c = true).
Proof.
  apply (proj2 (annotation_is_first_line
                  (HASH_PREFIX ++ Py.lit "abc" ++ [CR; LF] ++ Py.lit "x = 1"))).
  reflexivity.
Defined.

Lemma partition_None_inv (sep s : str) :
  partition sep s = None -> contains s sep = false.
Proof.
  induction s as [|c s IH].
  - cbn. destruct (startswith [] sep); [discriminate|reflexivity].
  - destruct (startswith (c :: s) sep) eqn:E.
    + rewrite (partition_hit _ _ E). discriminate.
    + rewrite (partition_miss _ _ _ E), contains_cons, E.
      destruct (partition sep s) as [[a b]|]; [discriminate|].
      intros _. apply IH. reflexivity.
Qed.

(** The text before the leftmost occurrence holds no occurrence. *)
Lemma partition_before (sep s a b : str) :
  sep <> [] -> partition sep s = Some (a, b) -> contains a sep = false.
Proof.
  intros Hsep. revert a b. induction s as [|c s IH]; intros a b.
  - rewrite (partition_nil _ Hsep). discriminate.
  - destruct (startswith (c :: s) sep) eqn:E.
    + rewrite (partition_hit _ _ E). intros H. injection H as <- _.
      destruct sep; [contradiction|reflexivity].
    + rewrite (partition_miss _ _ _ E).
      destruct (partition sep s) as [[a' b']|] eqn:P; [|discriminate].
      intros H. injection H as <- <-. rewrite contains_cons.
      rewrite (IH _ _ eq_refl), orb_false_r.
      destruct (startswith (c :: a') sep) eqn:E'; [|reflexivity].
      apply partition_spec in P. subst s.
      apply (startswith_app_l _ (sep ++ b')) in E'. cbn [app] in E'. congruence.
Qed.

Lemma split_parts_free_n (sep : str) (n : nat) (s : str) :
  sep <> [] -> length s <= n ->
  Forall (fun c => contains c sep = false) (split s sep).
Proof.
  intros Hsep. revert s. induction n as [|n IH]; intros s H.
  - destruct s; [|cbn in H; lia].
    rewrite split_not_found by (apply partition_nil; exact Hsep).
    constructor; [|constructor]. destruct sep; [contradiction|reflexivity].
  - destruct (partition sep s) as [[a b]|] eqn:P.
    + rewrite (split_found _ _ _ _ Hsep P). constructor.
      * apply (partition_before _ _ _ _ Hsep P).
      * apply IH. apply partition_spec in P. subst s.
        rewrite !length_app in H.
        assert (0 < length sep) by (destruct sep; [contradiction|cbn; lia]).
        lia.
    + rewrite (split_not_found _ _ P). constructor; [|constructor].
      apply partition_None_inv. exact P.
Qed.

Lemma contains_lstrip (s sub : str) :
  contains s sub = false -> contains (lstrip s) sub = false.
Proof.
  induction s as [|c s IH]; [intros H; exact H|].
  cbn [lstrip]. destruct (isspace c); [|intros H; exact H].
  rewrite contains_cons. intros H. apply orb_false_iff in H as [_ H].
  apply IH. exact H.
Qed.

Lemma lstrip_suffix (s : str) : exists p, s = p ++ lstrip s.
Proof.
  induction s as [|c s [p IH]]; [exists []; reflexivity|].
  cbn [lstrip]. destruct (isspace c); [|exists []; reflexivity].
  exists (c :: p). cbn [app]. f_equal. exact IH.
Qed.

Lemma contains_rstrip (s sub : str) :
  contains s sub = false -> contains (rstrip s) sub = false.
Proof.
  intros H. unfold rstrip. destruct (lstrip_suffix (rev s)) as [p E].
  apply (contains_app_l _ (rev p)).
  rewrite <- rev_app_distr, <- E, rev_involutive. exact H.
Qed.

(** X11: no chunk read from a flat text holds the delimiter line. *)
Theorem chunks_hold_no_delimiter (content : str) :
  Forall (fun c => contains c HEADER_COMMENT = false)
    (snd (extract_hash_and_chunks content)).
Proof.
  unfold extract_hash_and_chunks.
  destruct (startswith content HASH_PREFIX); cbn [snd];
    apply Forall_map;
    (eapply Forall_impl;
     [apply (split_parts_free_n HEADER_COMMENT _ _ header_not_nil (Nat.le_refl _))|]);
    intros c H; unfold strip; apply contains_rstrip, contains_lstrip; exact H.
Qed.

End FlatText.

(** ** The converter, chunk by chunk *)

Section Chunks.

Import Py PyFacts ConverterFacts.

Lemma slice_3_m3 (raw : str) :
  slice raw 3 (-3) = firstn (length raw - 6) (skipn 3 raw).
Proof.
  unfold slice, norm_index. change (3 <? 0)%Z with false.
  change (-3 <? 0)%Z with true. cbv iota. change (Z.to_nat 3) with 3%nat.
  destruct (le_lt_dec 3 (length raw)) as [H|H].
  - rewrite Nat.min_l by exact H. f_equal. lia.
  - rewrite Nat.min_r by lia.
    replace (Z.to_nat (Z.max 0 (Z.of_nat (length raw) + -3)) - length raw)%nat
      with 0%nat by lia.
    replace (length raw - 6)%nat with 0%nat by lia. reflexivity.
Qed.

Lemma between_brackets (raw r1 x : str) :
  raw = TRIPLE_QUOTE ++ r1 -> raw = x ++ TRIPLE_QUOTE -> 3 <= length x ->
  TRIPLE_QUOTE ++ firstn (length raw - 6) r1 ++ TRIPLE_QUOTE = raw.
Proof.
  intros E1 E2 Hx.
  assert (Hr : r1 = skipn 3 x ++ TRIPLE_QUOTE).
  { pose proof (f_equal (skipn 3) E1) as A. rewrite E2 in A at 1.
    rewrite skipn_app in A. replace (3 - length x)%nat with 0%nat in A by lia.
    symmetry. exact A. }
  rewrite E1 at 2. f_equal. rewrite Hr at 2. f_equal.
  rewrite Hr, firstn_app.
  assert (L : length raw = (length x + 3)%nat)
    by (rewrite E2, length_app; reflexivity).
  replace (length raw - 6 - length (skipn 3 x))%nat with 0%nat
    by (rewrite length_skipn; lia).
  rewrite firstn_all2 by (rewrite length_skipn; lia).
  apply app_nil_r.
Qed.

Lemma endswith_inv (s p : str) :
  endswith s p = true -> s = rev (skipn (length p) (rev s)) ++ p.
Proof.
  unfold endswith. intros H. apply startswith_inv in H.
  rewrite length_rev in H.
  rewrite <- (rev_involutive s) at 1. rewrite H at 1.
  rewrite rev_app_distr, rev_involutive. reflexivity.
Qed.

(** X12: a chunk is read as markdown exactly when it begins and ends with
    the bracket; with six characters or more it is the bracket, the text of
    the cell and the bracket, and a chunk of three to five quotes is a
    markdown cell without text.  Every other chunk is a code cell with the
    chunk as source. *)
Theorem chunk_classification (raw : str) :
  (bracketed raw = true ->
   exists src,
     cell_of_chunk raw = MarkdownCell (Json.Dict []) src
     /\ (6 <= length raw -> raw = TRIPLE_QUOTE ++ src ++ TRIPLE_QUOTE)
     /\ (length raw < 6 -> src = []))
  /\ (bracketed raw = false ->
      cell_of_chunk raw = CodeCell (Json.Dict []) raw [] None).
Proof.
  unfold bracketed, cell_of_chunk. split; intros H; rewrite H; [|reflexivity].
  exists (slice raw 3 (-3)). split; [reflexivity|].
  apply andb_true_iff in H as [H1 H2]. rewrite slice_3_m3. split.
  - intros L. symmetry.
    apply (between_brackets raw _ _ (startswith_inv _ _ H1) (endswith_inv _ _ H2)).
    rewrite length_rev, length_skipn, length_rev. cbn [length TRIPLE_QUOTE]. lia.
  - intros L. replace (length raw - 6)%nat with 0%nat by lia. reflexivity.
Qed.

Lemma chunk_classification_witness :
  (exists src,
     cell_of_chunk (TRIPLE_QUOTE ++ Py.lit "hi" ++ TRIPLE_QUOTE)
       = MarkdownCell (Json.Dict []) src
     /\ (6 <= 8 -> TRIPLE_QUOTE ++ Py.lit "hi" ++ TRIPLE_QUOTE
                   = TRIPLE_QUOTE ++ src ++ TRIPLE_QUOTE)
     /\ (8 < 6 -> src = []))
  /\ (exists src,
        cell_of_chunk [34; 34; 34; 34]%N = MarkdownCell (Json.Dict []) src
        /\ (6 <= 4 -> [34; 34; 34; 34]%N = TRIPLE_QUOTE ++ src ++ TRIPLE_QUOTE)
        /\ (4 < 6 -> src = []))
  /\ cell_of_chunk (Py.lit "x = 1") = CodeCell (Json.Dict []) (Py.lit "x = 1") [] None.
Proof.
  split; [|split].
  - apply (proj1 (chunk_classification (TRIPLE_QUOTE ++ Py.lit "hi" ++ TRIPLE_QUOTE))).
    reflexivity.
  - apply (proj1 (chunk_classification [34; 34; 34; 34]%N)). reflexivity.
  - apply (proj2 (chunk_classification (Py.lit "x = 1"))). reflexivity.
Defined.

Lemma hexdigit_is_hex (d : Z) : (0 <= d < 16)%Z -> is_hex (hexdigit d) = true.
Proof.
  intros H.
  assert (d = 0 \/ d = 1 \/ d = 2 \/ d = 3 \/ d = 4 \/ d = 5 \/ d = 6
          \/ d = 7 \/ d = 8 \/ d = 9 \/ d = 10 \/ d = 11 \/ d = 12
          \/ d = 13 \/ d = 14 \/ d = 15)%Z as E by lia.
  repeat (destruct E as [->|E]; [reflexivity|]). subst d. reflexivity.
Qed.

Lemma le_bytes_length (n : nat) (x : Z) : length (MD5.le_bytes n x) = n.
Proof. unfold MD5.le_bytes. rewrite length_map, length_seq. reflexivity. Qed.

Lemma digest_length (bs : list Z) : length (MD5.digest bs) = 16.
Proof.
  unfold MD5.digest. destruct (MD5.blocks _ _ _) as [[[a b] c] d].
  rewrite !length_app, !le_bytes_length. reflexivity.
Qed.

(** X13: a fingerprint is a text of thirty-two lower-case hexadecimal
    digits, whatever the notebook. *)
Theorem fingerprint_format (nb : NotebookNode) :
  length (compute_hash nb) = 32
  /\ Forall (fun c => is_hex c = true) (compute_hash nb).
Proof.
  unfold compute_hash, md5_hexdigest.
  set (bs := Json.encode _). pose proof (digest_length bs) as L.
  pose proof (digest_range bs) as R. clearbody bs.
  set (d := MD5.digest bs) in *. clearbody d. split.
  - assert (G : forall l : list Z, length (concat (map hexbyte l)) = (2 * length l)%nat).
    { induction l as [|b l IH]; [reflexivity|].
      cbn [map concat length app hexbyte]. rewrite IH. lia. }
    rewrite G, L. reflexivity.
  - clear L. induction R as [|b l Hb Hl IH]; [constructor|].
    cbn [map concat]. apply Forall_app. split; [|exact IH].
    unfold hexbyte. repeat constructor; apply hexdigit_is_hex.
    + split; [apply Z.div_pos; lia|apply Z.div_lt_upper_bound; lia].
    + apply Z.mod_pos_bound. reflexivity.
Qed.

End Chunks.

(** ** Chunks written and read *)

Section WrittenAndRead.

Import Py PyFacts ConverterFacts.

Lemma stable_chunk_inv (c : str) :
  stable_chunk c = true ->
  strip c = c /\ only_lf c /\ contains (c ++ [LF]) HEADER_COMMENT = false.
Proof.
  unfold stable_chunk. intros H.
  apply andb_true_iff in H as [H H3]. apply andb_true_iff in H as [H1 H2].
  apply str_eqb_eq in H1. apply negb_true_iff in H3.
  repeat split; try assumption.
  clear - H2. unfold only_lf. induction c as [|x c IH]; [constructor|].
  cbn [forallb] in H2. apply andb_true_iff in H2 as [Hx Hc].
  constructor; [|exact (IH Hc)].
  intros Hb. rewrite Hb in Hx. apply N.eqb_eq. exact Hx.
Qed.

(** A text made of the annotation line and stable chunks reads as the
    annotation and the chunks. *)
Lemma extract_joined (chunks : list str) (hash : str) :
  Forall (fun c => stable_chunk c = true) chunks ->
  chunks = [[]] \/ List.last chunks [] <> [] ->
  Forall (fun c => islinebreak c = false) hash ->
  extract_hash_and_chunks (HASH_PREFIX ++ (hash ++ [LF]) ++ join CHUNK_SEP chunks)
  = (Some hash, chunks).
Proof.
  intros Hs Hlast Hh. rewrite (extract_annotated _ _ Hh).
  assert (Hne : chunks <> []).
  { destruct Hlast as [->|H]; [discriminate|]. intros ->. apply H. reflexivity. }
  rewrite join_splitlines.
  - f_equal. rewrite split_join_chunks; [|exact Hne|].
    + clear Hlast Hne. induction Hs as [|c l Hc Hl IH]; [reflexivity|].
      cbn [map]. rewrite IH. f_equal. apply stable_chunk_inv in Hc. tauto.
    + eapply Forall_impl; [exact Hs|]. intros c H.
      apply stable_chunk_inv in H. tauto.
  - apply only_lf_join. eapply Forall_impl; [exact Hs|]. intros c H.
    apply stable_chunk_inv in H. tauto.
  - destruct Hlast as [->|H]; [reflexivity|].
    rewrite join_last by exact H.
    assert (Hp : stable_chunk (List.last chunks []) = true).
    { clear Hne. induction Hs as [|c l Hc Hl IH]; [contradiction|].
      destruct l as [|c' l]; [exact Hc|]. apply IH. exact H. }
    apply stable_chunk_inv in Hp as [<- _]. apply strip_last. reflexivity.
Qed.

(** X14: when the chunks written for a notebook are stable (stripped, with
    no line break but line feeds and no delimiter line once a line feed
    follows) and the last one is not empty unless it is the only one, the
    text written reads as the annotation and these very chunks. *)
Theorem chunks_read_as_written (nb : NotebookNode) (hash : str) :
  Forall (fun c => stable_chunk c = true) (py_chunks nb) ->
  py_chunks nb = [[]] \/ List.last (py_chunks nb) [] <> [] ->
  Forall (fun c => islinebreak c = false) hash ->
  extract_hash_and_chunks (py_text nb hash) = (Some hash, py_chunks nb).
Proof. intros Hs Hlast Hh. apply extract_joined; assumption. Qed.

Lemma chunks_read_as_written_witness :
  let nb := Samples.notebook
              [Samples.markdown (Py.lit "# Title");
               RawCell (Json.Dict []) (Py.lit "raw");
               Samples.run_code (Py.lit "x = 1")] in
  extract_hash_and_chunks (py_text nb (compute_hash nb))
  = (Some (compute_hash nb), py_chunks nb).
Proof.
  apply (chunks_read_as_written
           (Samples.notebook
              [Samples.markdown (Py.lit "# Title");
               RawCell (Json.Dict []) (Py.lit "raw");
               Samples.run_code (Py.lit "x = 1")])).
  - repeat constructor.
  - right. discriminate.
  - apply md5_hexdigest_no_break.
Defined.

(** The chunk of a markdown cell is read as a markdown cell with a line feed
    more on each side of the text. *)
Lemma markdown_chunk_read (s : str) :
  cell_of_chunk (TRIPLE_QUOTE ++ [LF] ++ s ++ [LF] ++ TRIPLE_QUOTE)
  = MarkdownCell (Json.Dict []) ([LF] ++ s ++ [LF]).
Proof.
  unfold cell_of_chunk. rewrite startswith_app.
  replace (TRIPLE_QUOTE ++ [LF] ++ s ++ [LF] ++ TRIPLE_QUOTE)
    with ((TRIPLE_QUOTE ++ [LF] ++ s ++ [LF]) ++ TRIPLE_QUOTE)
    by (rewrite <- !app_assoc; reflexivity).
  unfold endswith. rewrite rev_app_distr, startswith_app. cbn [andb].
  f_equal. rewrite slice_3_m3.
  replace ((TRIPLE_QUOTE ++ [LF] ++ s ++ [LF]) ++ TRIPLE_QUOTE)
    with (TRIPLE_QUOTE ++ ([LF] ++ s ++ [LF]) ++ TRIPLE_QUOTE)
    by (rewrite <- !app_assoc; reflexivity).
  change (skipn 3 (TRIPLE_QUOTE ++ ([LF] ++ s ++ [LF]) ++ TRIPLE_QUOTE))
    with (([LF] ++ s ++ [LF]) ++ TRIPLE_QUOTE).
  rewrite firstn_app.
  replace (length (TRIPLE_QUOTE ++ ([LF] ++ s ++ [LF]) ++ TRIPLE_QUOTE) - 6)%nat
    with (length ([LF] ++ s ++ [LF]))
    by (rewrite !length_app; cbn [length TRIPLE_QUOTE]; lia).
  rewrite firstn_all, Nat.sub_diag. apply app_nil_r.
Qed.

Lemma cells_of_written_chunks (cs : list Cell) :
  Forall (fun c => match c with
                   | CodeCell _ s _ _ => bracketed s = false
                   | _ => True
                   end) cs ->
  map cell_of_chunk (flat_map chunk_of_cell cs) = flat_map cell_read_back cs.
Proof.
  induction 1 as [|c cs Hc Hcs IH]; [reflexivity|].
  cbn [flat_map]. rewrite map_app, IH. f_equal.
  destruct c as [m s|m s o e|m s].
  - unfold chunk_of_cell. cbn [cell_type cell_source].
    change (str_eqb (lit "markdown") (lit "markdown")) with true. cbv iota.
    cbn [map cell_read_back]. rewrite markdown_chunk_read. reflexivity.
  - unfold chunk_of_cell. cbn [cell_type cell_source].
    change (str_eqb (lit "code") (lit "markdown")) with false.
    change (str_eqb (lit "code") (lit "code")) with true. cbv iota.
    cbn [map cell_read_back]. unfold cell_of_chunk. fold (bracketed s).
    rewrite Hc. reflexivity.
  - reflexivity.
Qed.

(** X15: under the same provisions, and when no code cell is in brackets,
    the notebook read back has, cell for cell, each markdown cell with a
    line feed more on each side of its text, each code cell with its source
    and without its outputs and counter, and no cell of another type. *)
Theorem cells_read_back (nb : NotebookNode) (hash : str) (p : Path) :
  Forall (fun c => match c with
                   | CodeCell _ s _ _ => bracketed s = false
                   | _ => True
                   end) (cells nb) ->
  Forall (fun c => stable_chunk c = true) (py_chunks nb) ->
  py_chunks nb = [[]] \/ List.last (py_chunks nb) [] <> [] ->
  Forall (fun c => islinebreak c = false) hash ->
  cells (read_back p nb hash) = flat_map cell_read_back (cells nb).
Proof.
  intros Hb Hs Hlast Hh. unfold read_back, py_text.
  rewrite (extract_joined _ _ Hs Hlast Hh). cbn [snd from_code_cells nb_data cells].
  apply cells_of_written_chunks. exact Hb.
Qed.

Lemma cells_read_back_witness :
  let nb := Samples.notebook
              [Samples.markdown (Py.lit "# Title");
               RawCell (Json.Dict []) (Py.lit "raw");
               Samples.run_code (Py.lit "x = 1")] in
  cells (read_back Samples.demo_ipynb nb (compute_hash nb))
  = [Samples.markdown ([LF] ++ Py.lit "# Title" ++ [LF]);
     Samples.code (Py.lit "x = 1")].
Proof.
  apply (cells_read_back
           (Samples.notebook
              [Samples.markdown (Py.lit "# Title");
               RawCell (Json.Dict []) (Py.lit "raw");
               Samples.run_code (Py.lit "x = 1")])).
  - repeat constructor.
  - repeat constructor.
  - right. discriminate.
  - apply md5_hexdigest_no_break.
Defined.

Lemma universal_newlines_nil_inv (s : str) :
  universal_newlines s = [] -> s = [].
Proof.
  destruct s as [|c s]; [reflexivity|]. cbn [universal_newlines].
  destruct (c =? CR)%N; discriminate.
Qed.

Lemma splitlines_lf (s : str) :
  splitlines (LF :: s) = [] :: splitlines s.
Proof. destruct s; reflexivity. Qed.

Lemma splitlines_break (c : char) (s : str) :
  islinebreak c = true -> (c =? CR)%N = false ->
  splitlines (c :: s) = [] :: splitlines s.
Proof.
  intros E Hc. cbn [splitlines]. rewrite E.
  destruct s as [|d s]; [reflexivity|]. rewrite Hc. reflexivity.
Qed.

Lemma splitlines_universal_n (n : nat) (s : str) :
  length s <= n -> splitlines (universal_newlines s) = splitlines s.
Proof.
  revert s. induction n as [|n IH]; intros s H.
  - destruct s; [reflexivity|cbn in H; lia].
  - destruct s as [|c s]; [reflexivity|]. cbn [length] in H.
    cbn [universal_newlines]. destruct (N.eqb_spec c CR) as [->|Hc].
    + rewrite splitlines_lf. cbn [splitlines].
      change (islinebreak CR) with true. cbv iota.
      destruct s as [|d s]; [reflexivity|]. cbn [length] in H.
      rewrite N.eqb_refl. cbn [andb].
      destruct (d =? LF)%N; f_equal; apply IH; cbn [length]; lia.
    + assert (Hcr : (c =? CR)%N = false) by (apply N.eqb_neq; exact Hc).
      destruct (islinebreak c) eqn:E.
      * rewrite !(splitlines_break _ _ E Hcr). f_equal. apply IH. lia.
      * cbn [splitlines]. rewrite E, (IH s) by lia. reflexivity.
Qed.

Lemma universal_newlines_app (p x : str) :
  Forall (fun c => c <> CR) p ->
  universal_newlines (p ++ x) = p ++ universal_newlines x.
Proof.
  induction 1 as [|c p Hc Hp IH]; [reflexivity|].
  cbn [app universal_newlines]. rewrite IH.
  destruct (N.eqb_spec c CR) as [E|_]; [contradiction|reflexivity].
Qed.

(** X16: a text that begins with the annotation prefix reads the same with
    carriage returns, alone or before a line feed, as with line feeds in
    their place. *)
Theorem extract_universal_newlines (content : str) :
  startswith content HASH_PREFIX = true ->
  extract_hash_and_chunks (universal_newlines content)
  = extract_hash_and_chunks content.
Proof.
  intros H. unfold extract_hash_and_chunks. rewrite H.
  rewrite (splitlines_universal_n (length content)) by lia.
  pose proof (startswith_inv _ _ H) as E.
  assert (G : startswith (universal_newlines content) HASH_PREFIX = true).
  { rewrite E, universal_newlines_app; [apply startswith_app|].
    repeat constructor; discriminate. }
  rewrite G. reflexivity.
Qed.

Lemma extract_universal_newlines_witness :
  let content := HASH_PREFIX ++ Py.lit "abc" ++ [CR; LF] ++ Py.lit "x = 1"
                 ++ [CR] ++ Py.lit "# %%" ++ [CR; LF] ++ Py.lit "y = 2" in
  extract_hash_and_chunks (universal_newlines content)
  = extract_hash_and_chunks content.
Proof.
  apply (extract_universal_newlines
           (HASH_PREFIX ++ Py.lit "abc" ++ [CR; LF] ++ Py.lit "x = 1"
            ++ [CR] ++ Py.lit "# %%" ++ [CR; LF] ++ Py.lit "y = 2")).
  reflexivity.
Defined.

End WrittenAndRead.

(** ** The stems [main] visits *)

Section Main.

Import Py PyFacts ConverterFacts.

Lemma rfind_from_none (c : char) (s : str) (i : nat) (found : option nat) :
  Forall (fun x => x <> c) s -> rfind_from c s i found = found.
Proof.
  intros H. revert i found. induction H as [|x s Hx Hs IH]; intros i found;
    [reflexivity|].
  cbn [rfind_from]. rewrite IH.
  destruct (N.eqb_spec x c) as [E|_]; [contradiction|reflexivity].
Qed.

Lemma rfind_from_last (c : char) (x t : str) (i : nat) (found : option nat) :
  Forall (fun y => y <> c) t ->
  rfind_from c (x ++ c :: t) i found = Some (i + length x)%nat.
Proof.
  intros Ht. revert i found. induction x as [|y x IH]; intros i found.
  - cbn [app rfind_from length]. rewrite N.eqb_refl.
    rewrite (rfind_from_none _ _ _ _ Ht). f_equal. lia.
  - cbn [app rfind_from length]. rewrite IH. f_equal. lia.
Qed.

(** The stem of a name that ends with a dot and a suffix without dot. *)
Lemma stem_of_suffixed (x t : str) :
  Forall (fun y => y <> 46%N) t -> t <> [] ->
  stem_of (x ++ 46%N :: t) = if decide (x = []) then 46%N :: t else x.
Proof.
  intros Ht Hne. unfold stem_of, rfind.
  rewrite (rfind_from_last _ _ _ _ _ Ht). cbn [Nat.add].
  rewrite length_app. cbn [length].
  destruct x as [|y x].
  - reflexivity.
  - destruct (decide (y :: x = [])) as [E|_]; [discriminate E|].
    cbn [length]. destruct t as [|z t]; [contradiction|]. cbn [length].
    replace (0 <? S (length x))%nat with true by (symmetry; apply Nat.ltb_lt; lia).
    replace (S (length x) <? S (length x) + S (S (length t)) - 1)%nat with true
      by (symmetry; apply Nat.ltb_lt; lia).
    cbn [andb]. change (S (length x)) with (length (y :: x)).
    rewrite firstn_app, firstn_all, Nat.sub_diag. apply app_nil_r.
Qed.

(** X17: the stem of the name [process_file_pair] builds for a stem that is
    not empty is that stem, for the flat file and for the notebook; and the
    name of a file that [glob] finds is built from its stem, but for the one
    name that is the suffix alone, whose stem is the whole name. *)
Theorem stem_of_built_name (stem name : str) :
  (stem <> [] ->
   stem_of (stem ++ Py.lit ".py") = stem
   /\ stem_of (stem ++ Py.lit ".ipynb") = stem)
  /\ (endswith name (Py.lit ".py") = true ->
      (name <> Py.lit ".py" -> stem_of name ++ Py.lit ".py" = name)
      /\ (name = Py.lit ".py" -> stem_of name = name)).
Proof.
  split.
  - intros Hne. split.
    + change (Py.lit ".py") with (46%N :: Py.lit "py").
      rewrite stem_of_suffixed by (try discriminate; repeat constructor; discriminate).
      destruct (decide (stem = [])); [contradiction|reflexivity].
    + change (Py.lit ".ipynb") with (46%N :: Py.lit "ipynb").
      rewrite stem_of_suffixed by (try discriminate; repeat constructor; discriminate).
      destruct (decide (stem = [])); [contradiction|reflexivity].
  - intros H. apply endswith_inv in H.
    set (x := rev (skipn (length (Py.lit ".py")) (rev name))) in *.
    clearbody x. subst name. split.
    + intros Hne. change (Py.lit ".py") with (46%N :: Py.lit "py").
      rewrite stem_of_suffixed by (try discriminate; repeat constructor; discriminate).
      destruct (decide (x = [])) as [->|_]; [contradiction|reflexivity].
    + intros E. destruct x as [|y x]; [reflexivity|].
      apply (f_equal (@length N)) in E. rewrite length_app in E.
      cbn in E. lia.
Qed.

Lemma stem_of_built_name_witness :
  (stem_of (Samples.demo ++ Py.lit ".py") = Samples.demo
   /\ stem_of (Samples.demo ++ Py.lit ".ipynb") = Samples.demo)
  /\ stem_of (Py.lit "a.b.py") ++ Py.lit ".py" = Py.lit "a.b.py"
  /\ stem_of (Py.lit ".py") = Py.lit ".py".
Proof.
  split; [|split].
  - apply (proj1 (stem_of_built_name Samples.demo [])). discriminate.
  - apply (proj1 (proj2 (stem_of_built_name [] (Py.lit "a.b.py")) eq_refl)).
    discriminate.
  - apply (proj2 (proj2 (stem_of_built_name [] (Py.lit ".py")) eq_refl)).
    reflexivity.
Defined.

Lemma In_map_to_list_keys {A : Type} (m : gmap Path A) (p : Path) :
  In p (map fst (map_to_list m)) -> is_Some (m !! p).
Proof.
  intros H. apply in_map_iff in H as ([k v] & E & H). cbn in E. subst k.
  apply list_elem_of_In in H. apply elem_of_map_to_list in H. eauto.
Qed.

Lemma is_Some_In_keys {A : Type} (m : gmap Path A) (p : Path) :
  is_Some (m !! p) -> In p (map fst (map_to_list m)).
Proof.
  intros [v H]. apply in_map_iff. exists (p, v). split; [reflexivity|].
  apply list_elem_of_In. apply elem_of_map_to_list. exact H.
Qed.

(** The names [listdir] gives are those of the files of the directory. *)
Lemma In_listdir (w : World) (dir name : str) :
  In name (listdir w dir) <->
  is_Some (py_files w !! (dir, name)) \/ is_Some (nb_files w !! (dir, name)).
Proof.
  unfold listdir. rewrite in_map_iff. split.
  - intros ([d n] & E & H). cbn in E. subst n.
    apply filter_In in H as [H Hd]. apply bool_decide_eq_true in Hd.
    cbn in Hd. subst d.
    apply in_app_or in H as [H|H]; [left|right];
      apply In_map_to_list_keys; exact H.
  - intros H. exists (dir, name). split; [reflexivity|].
    apply filter_In. split; [|apply bool_decide_eq_true; reflexivity].
    apply in_or_app. destruct H as [H|H]; [left|right];
      apply is_Some_In_keys; exact H.
Qed.

Lemma filter_none {A : Type} (f : A -> bool) (l : list A) :
  (forall x, In x l -> f x = false) -> List.filter f l = [].
Proof.
  induction l as [|x l IH]; [reflexivity|]. intros H. cbn [List.filter].
  rewrite (H x (or_introl eq_refl)). apply IH.
  intros y Hy. apply H. right. exact Hy.
Qed.

Lemma enumerates_empty (order : list str) : enumerates order ∅ -> order = [].
Proof.
  intros [_ H]. destruct order as [|s order]; [reflexivity|].
  exfalso. apply (not_elem_of_empty (C := gset (list N)) s).
  apply H. apply list_elem_of_here.
Qed.

(** X18: [main] looks for the flat files in the directory of the notebooks
    and for the notebooks in the directory of the flat files.  When the two
    directories differ, every flat file is in the first and every notebook
    in the second, as [process_file_pair] reads them, [main] visits no stem
    and the disk stays as it is, whatever the pairs hold. *)
Theorem main_misses_the_pairs (environ : gmap (list N) (list N))
    (ep : Executor) (order : list str) (w : World) (PY_DIR NB_DIR : str) :
  environ !! SCRIPT_DIR = Some PY_DIR ->
  environ !! NOTEBOOK_DIR = Some NB_DIR ->
  PY_DIR <> NB_DIR ->
  (forall p, is_Some (py_files w !! p) ->
     fst p = PY_DIR /\ endswith (snd p) (Py.lit ".ipynb") = false) ->
  (forall p, is_Some (nb_files w !! p) ->
     fst p = NB_DIR /\ endswith (snd p) (Py.lit ".py") = false) ->
  enumerates order (all_stems w PY_DIR NB_DIR) ->
  all_stems w PY_DIR NB_DIR = ∅ /\ main environ ep order w = Visited (Ok tt) w.
Proof.
  intros Hs Hn Hne Hpy Hnb Horder.
  assert (E : all_stems w PY_DIR NB_DIR = ∅).
  { unfold all_stems, glob. rewrite !filter_none.
    - cbn [map list_to_set]. apply union_empty_r_L.
    - intros name H. apply In_listdir in H as [H|H].
      + apply Hpy in H. cbn in H. tauto.
      + apply Hnb in H. cbn in H. destruct H as [H _]. congruence.
    - intros name H. apply In_listdir in H as [H|H].
      + apply Hpy in H. cbn in H. destruct H as [H _]. congruence.
      + apply Hnb in H. cbn in H. tauto. }
  split; [exact E|]. rewrite E in Horder.
  apply enumerates_empty in Horder. subst order.
  unfold main. rewrite Hs, Hn. reflexivity.
Qed.

End Main.

(** ** The steps and the loop on sample disks *)

Section StepSamples.

Import Py Samples MoreSamples.


Lemma successful_step_writes_pair_witness :
  let w' := snd (main_step scripts notebooks counting_kernel demo flat_edited_disk) in
  exists nb flat,
    nb_files w' = <[demo_ipynb := nb]> (nb_files flat_edited_disk)
    /\ py_files w' = <[demo_py := py_text nb (compute_hash nb)]>
                       (py_files flat_edited_disk)
    /\ py_read w' demo_py = Some flat
    /\ fst (extract_hash_and_chunks flat) = Some (compute_hash nb).
Proof.
  apply (successful_step_writes_pair scripts notebooks demo counting_kernel
           flat_edited_disk).
  vm_compute. reflexivity.
Defined.

Lemma step_after_step_witness :
  let w1 := snd (main_step scripts notebooks counting_kernel demo titled_disk) in
  exists nb,
    nb_files w1 !! demo_ipynb = Some nb
    /\ let back := reread demo_ipynb nb (compute_hash nb) in
       process_file_pair demo scripts notebooks counting_kernel w1 =
         if str_eqb (compute_hash nb) (compute_hash back) then
           (Ok {| path := demo_ipynb; nb_data := nb |}, w1)
         else
           let w2 := set_kernel_log (kernel_log w1 ++ [back]) w1 in
           match counting_kernel back with
           | Some data =>
               (Ok {| path := demo_ipynb; nb_data := data |},
                set_stdout (stdout w2 ++ [(demo_py, demo_ipynb)]) w2)
           | None => (Raise CellExecutionError, w2)
           end.
Proof.
  apply (step_after_step scripts notebooks demo counting_kernel titled_disk).
  vm_compute. reflexivity.
Defined.

Lemma flat_only_step_witness :
  main_step scripts notebooks counting_kernel demo unannotated_alone_disk =
    (Ok tt,
     set_py_files
       (<[demo_py := py_text (notebook [CodeCell (Json.Dict []) (Py.lit "a = 1") [] (Some 1%Z)])
                       (compute_hash (notebook [code (Py.lit "a = 1")]))]>
          (py_files unannotated_alone_disk))
       (set_nb_files
          (<[demo_ipynb := notebook [CodeCell (Json.Dict []) (Py.lit "a = 1") [] (Some 1%Z)]]>
             (nb_files unannotated_alone_disk))
          (set_kernel_log [notebook [code (Py.lit "a = 1")]]
             (set_stdout [(demo_py, demo_ipynb)] unannotated_alone_disk)))).
Proof.
  etransitivity.
  - apply (flat_only_step scripts notebooks demo counting_kernel
             unannotated_alone_disk (Py.lit "a = 1")).
    + vm_compute. reflexivity.
    + vm_compute. reflexivity.
  - vm_compute. reflexivity.
Defined.

Lemma missing_pair_asserts_witness :
  main_step scripts notebooks counting_kernel other in_step_disk
  = (Raise AssertionError, in_step_disk).
Proof.
  apply (missing_pair_asserts scripts notebooks other counting_kernel in_step_disk).
  - vm_compute. reflexivity.
  - vm_compute. reflexivity.
Defined.

Lemma unchanged_pair_kept_witness :
  process_file_pair demo scripts notebooks failing_kernel in_step_disk
  = (Ok {| path := demo_ipynb; nb_data := two_cells |}, in_step_disk).
Proof.
  apply (unchanged_pair_kept scripts notebooks demo failing_kernel in_step_disk
           (py_text two_cells (compute_hash two_cells)) two_cells).
  - vm_compute. reflexivity.
  - vm_compute. reflexivity.
  - vm_compute. reflexivity.
  - vm_compute. reflexivity.
Defined.

Lemma noop_convergence_plain_witness :
  exists w1,
    main_step scripts notebooks failing_kernel demo in_step_disk = (Ok tt, w1)
    /\ main_step scripts notebooks failing_kernel demo w1 = (Ok tt, w1).
Proof.
  apply (noop_convergence_plain scripts notebooks demo failing_kernel in_step_disk
           (py_text two_cells (compute_hash two_cells)) two_cells).
  - vm_compute. reflexivity.
  - vm_compute. reflexivity.
  - vm_compute. reflexivity.
  - vm_compute. reflexivity.
  - split; [|right; discriminate]. repeat constructor.
Defined.


Lemma main_loop_permutation_witness :
  let w' := snd (main_loop scripts notebooks failing_kernel [demo; other]
                   two_notebooks_disk) in
  exists w'',
    main_loop scripts notebooks failing_kernel [other; demo] two_notebooks_disk
      = (Ok tt, w'')
    /\ same_files w' w''.
Proof.
  apply (main_loop_permutation scripts notebooks failing_kernel
           [demo; other] [other; demo] two_notebooks_disk).
  - apply perm_swap.
  - vm_compute. reflexivity.
Defined.

Lemma main_misses_the_pairs_witness :
  all_stems flat_edited_disk scripts notebooks = ∅
  /\ main environ counting_kernel [] flat_edited_disk
     = Visited (Ok tt) flat_edited_disk.
Proof.
  apply (main_misses_the_pairs environ counting_kernel [] flat_edited_disk
           scripts notebooks).
  - vm_compute. reflexivity.
  - vm_compute. reflexivity.
  - discriminate.
  - intros p [v H]. cbn [flat_edited_disk disk py_files from_option] in H.
    apply lookup_singleton_Some in H as [<- _]. split; reflexivity.
  - intros p [v H]. cbn [flat_edited_disk disk nb_files from_option] in H.
    apply lookup_singleton_Some in H as [<- _]. split; reflexivity.
  - assert (E : all_stems flat_edited_disk scripts notebooks = ∅)
      by (vm_compute; reflexivity).
    rewrite E. split; [constructor|]. intros s. split; intros H.
    + inversion H.
    + exfalso. exact (not_elem_of_empty (C := gset (list N)) s H).
Defined.

End StepSamples.

(** ** Calls of the kernel *)

Section Kernel.

Import Py PyFacts ConverterFacts.

Variables (PY_DIR NB_DIR stem : str) (ep : Executor).

Let py_path := py_path_of PY_DIR stem.
Let nb_path := nb_path_of NB_DIR stem.

Lemma decide_pair_kernel (pp np : Path) (ref_hash : option str)
    (nb nbp : NotebookFile) (w w' : World) (r : Result NotebookFile) :
  decide_pair stem pp np ref_hash nb nbp ep w = (r, w') ->
  kernel_log w' = kernel_log w
  \/ kernel_log w' = kernel_log w ++ [nb_data nbp].
Proof.
  unfold decide_pair, execute, print, raise, mbind, mret, IO_bind, IO_ret.
  destruct ref_hash as [ref|].
  - repeat match goal with
           | |- context [if ?b then _ else _] => destruct b
           end;
      try destruct (ep (nb_data nbp));
      intros H; injection H as <- <-; auto.
  - intros H. injection H as <- <-. auto.
Qed.

Lemma process_file_pair_kernel (w w' : World) (r : Result NotebookFile) :
  process_file_pair stem PY_DIR NB_DIR ep w = (r, w') ->
  kernel_log w' = kernel_log w
  \/ exists content,
       py_read w py_path = Some content
       /\ kernel_log w'
          = kernel_log w
            ++ [nb_data (from_code_cells nb_path
                           (snd (extract_hash_and_chunks content)))].
Proof.
  rewrite process_file_pair_cases. fold py_path nb_path.
  destruct (py_read w py_path) as [content|];
    destruct (nb_files w !! nb_path) as [nb|].
  - intros H. apply decide_pair_kernel in H as [H|H]; [left; exact H|].
    right. exists content. split; [reflexivity|exact H].
  - unfold execute. intros H. right. exists content. split; [reflexivity|].
    destruct (ep _); injection H as <- <-; reflexivity.
  - intros H. injection H as <- <-. left. reflexivity.
  - intros H. injection H as <- <-. left. reflexivity.
Qed.

(** X20: a step calls the kernel once at most, and only on the notebook
    built from the chunks of the flat file: a notebook loaded from its file
    is never run again. *)
Theorem kernel_runs_flat_only (w w' : World) (r : Result unit) :
  main_step PY_DIR NB_DIR ep stem w = (r, w') ->
  kernel_log w' = kernel_log w
  \/ exists content,
       py_read w py_path = Some content
       /\ kernel_log w'
          = kernel_log w
            ++ [nb_data (from_code_cells nb_path
                           (snd (extract_hash_and_chunks content)))].
Proof.
  intros H.
  destruct (process_file_pair stem PY_DIR NB_DIR ep w) as [[nbf|e] w1] eqn:E.
  - rewrite (main_step_ok _ _ _ _ _ _ _ E) in H. injection H as _ <-.
    cbn [set_py_files set_nb_files kernel_log].
    apply (process_file_pair_kernel _ _ _ E).
  - rewrite (main_step_raise _ _ _ _ _ _ _ E) in H. injection H as _ <-.
    apply (process_file_pair_kernel _ _ _ E).
Qed.

End Kernel.

Section MoreWitnesses.

Import Py Samples.

Lemma kernel_runs_flat_only_witness :
  let w' := snd (main_step scripts notebooks counting_kernel demo flat_edited_disk) in
  kernel_log w' = kernel_log flat_edited_disk
  \/ exists content,
       py_read flat_edited_disk demo_py = Some content
       /\ kernel_log w'
          = kernel_log flat_edited_disk
            ++ [nb_data (from_code_cells demo_ipynb
                           (snd (extract_hash_and_chunks content)))].
Proof.
  apply (kernel_runs_flat_only scripts notebooks demo counting_kernel
           flat_edited_disk _ (Ok tt)).
  vm_compute. reflexivity.
Defined.

Lemma chunks_are_stripped_witness :
  Forall (fun c =>
            strip c = c
            /\ forall w, isspace w = true ->
                 startswith c [w] = false /\ endswith c [w] = false)
    (snd (extract_hash_and_chunks
            ([32; 10]%N ++ Py.lit "x = 1  " ++ [LF] ++ HEADER_COMMENT
             ++ [9]%N ++ Py.lit "y = 2" ++ [LF; LF]))).
Proof.
  apply (chunks_are_stripped
           ([32; 10]%N ++ Py.lit "x = 1  " ++ [LF] ++ HEADER_COMMENT
            ++ [9]%N ++ Py.lit "y = 2" ++ [LF; LF])).
Defined.

End MoreWitnesses.
